(** * vsn300-pvoutput: the polling and accounting engine of [web_dashboard.py]

    A shallow embedding of the poller of the VSN300 to PVOutput bridge:
    the register decoder and the daily-energy baseline of
    [read_legacy_block], the helpers [decode_status], [detect_night] and
    [save_state], and one iteration of the [while] loop of [poller_loop].

    Conventions of the embedding.
    - Python numbers ([int] and [float]) are the rationals they denote
      ([Q]); [round(x, n)] is written out as round-half-even on [n]
      decimals.  Binary rounding error and the range of a [float] are
      not part of the model.
    - A naive local [datetime] is its number of microseconds since the
      start of the calendar ([Z]); [isoformat]/[fromisoformat] are the
      identity on it, [strftime("%Y-%m-%d")] is the day number.
    - Exceptions are [option]: [None] is the [except] branch.
    - The Modbus read, the clock, the answer of the upload and a fault
      of the state file are inputs of a cycle ([Env]); the in-memory
      [state] dict, [energy_baseline.json] and [state.json] are the
      [World] it transforms. *)

From Stdlib Require Import ZArith QArith Qround List String Ascii Bool Lia Lqa
  Sorted.
Import ListNotations.

Open Scope string_scope.
Open Scope list_scope.
Open Scope Z_scope.
Open Scope Q_scope.

(** ** Python numerics *)

Module Py.

(** [round] on an exact value: nearest integer, ties to the even one. *)
Definition round_half_even (x : Q) : Z :=
  let f := Qfloor x in
  match Qcompare (x - inject_Z f) (1 # 2) with
  | Lt => f
  | Gt => (f + 1)%Z
  | Eq => if Z.even f then f else (f + 1)%Z
  end.

(** [round(x, nd)]. *)
Definition round (x : Q) (nd : nat) : Q :=
  Qmake (round_half_even (x * inject_Z (Zpos (10 ^ Pos.of_nat nd))))
        (10 ^ Pos.of_nat nd).

(** [max(a, b)] and [min(a, b)]: the first argument wins a tie. *)
Definition max (a b : Q) : Q := if Qlt_le_dec a b then b else a.
Definition min (a b : Q) : Q := if Qlt_le_dec b a then b else a.

(** [int(x)]: truncation towards zero. *)
Definition int (x : Q) : Z := Z.quot (Qnum x) (Zpos (Qden x)).

(** [a <= x <= b] and [x < b] as the tests the code branches on. *)
Definition between (a x b : Q) : bool := Qle_bool a x && Qle_bool x b.
Definition lt (x b : Q) : bool := negb (Qle_bool b x).

End Py.

(** The [try]/[except] of the decoder as a monad on [option]. *)
Definition bind {A B} (m : option A) (k : A -> option B) : option B :=
  match m with Some a => k a | None => None end.

Notation "x <- m ;; k" := (bind m (fun x => k))
  (at level 61, m at next level, right associativity).

(** ** Clock *)

Definition datetime := Z.

Definition us_per_day : Z := 86400000000.
Definition us_per_second : Z := 1000000.

(** [now.strftime("%Y-%m-%d")], as a day number. *)
Definition day_of (t : datetime) : Z := (t / us_per_day)%Z.

(** [today_midnight_local()]: [datetime(n.year, n.month, n.day)]. *)
Definition today_midnight_local (n : datetime) : datetime :=
  (day_of n * us_per_day)%Z.

(** [isoformat(timespec="seconds")] drops the microseconds. *)
Definition to_seconds (t : datetime) : datetime :=
  (t / us_per_second * us_per_second)%Z.

(** [(a - b).total_seconds()]. *)
Definition total_seconds (a b : datetime) : Q :=
  inject_Z (a - b) / inject_Z us_per_second.

(** ** The baseline file [energy_baseline.json] *)

(** What [prev.get("wh", e_wh)] finds. *)
Inductive wh_field : Type :=
| WhAbsent                (* no such key: the default [e_wh] is used *)
| WhNum (w : Q)           (* a number *)
| WhOther.                (* null, a string, ...: the subtraction raises *)

Inductive baseline_file : Type :=
| NoFile                                  (* [os.path.exists] is false *)
| Unreadable                              (* [json.load] or [.get] raises *)
| Doc (day : option Z) (wh : wh_field).   (* an object; [day] is [None]
                                             when it is no date string *)

Definition day_is (d : option Z) (today : Z) : bool :=
  match d with Some d' => (d' =? today)%Z | None => false end.

(** Lines 157-174: energy produced today from the lifetime counter. *)
Definition energy_today_of (today : Z) (e_wh : Q) (bf : baseline_file) : Q :=
  match bf with
  | NoFile => 0
  | Unreadable => 0
  | Doc d wh =>
      if day_is d today then
        match wh with
        | WhAbsent => Py.max 0 (e_wh - e_wh)
        | WhNum w => Py.max 0 (e_wh - w)
        | WhOther => 0
        end
      else 0
  end.

(** Lines 176-192: the file is written when it is missing or carries
    another day, and left alone otherwise. *)
Definition baseline_after (today : Z) (e_wh : Q) (bf : baseline_file)
  : baseline_file :=
  match bf with
  | NoFile => Doc (Some today) (WhNum e_wh)
  | Unreadable => Unreadable
  | Doc d wh =>
      if day_is d today then Doc d wh else Doc (Some today) (WhNum e_wh)
  end.

(** The two together: the daily-energy step of [read_legacy_block]. *)
Definition daily_energy_wh (today : Z) (e_wh : Q) (bf : baseline_file)
  : Q * baseline_file :=
  (energy_today_of today e_wh bf, baseline_after today e_wh bf).

(** ** The register decoder *)

Record Sample : Type := {
  s_ac_voltage : Q;
  s_grid_freq_hz : Q;
  s_inverter_temp_c : Q;
  s_power_w : Z;
  s_energy_lifetime_wh : Q;
  s_energy_today_wh : Q;
  s_status_code : Z
}.

(** [regs[i]]; an [IndexError] is [None]. *)
Definition reg (regs : list Z) (i : nat) : option Z := nth_error regs i.

(** [sf_reg if sf_reg < 32768 else sf_reg - 65536]. *)
Definition scale_factor (sf_reg : Z) : Z :=
  if (sf_reg <? 32768)%Z then sf_reg else (sf_reg - 65536)%Z.

(** [(low << 16) | high]. *)
Definition e_raw_of (low high : Z) : Z := Z.lor (Z.shiftl low 16) high.

(** [e_raw * (10 ** sf)]. *)
Definition e_wh_of (low high sf_reg : Z) : Q :=
  inject_Z (e_raw_of low high) * (inject_Z 10) ^ (scale_factor sf_reg).

(** [read_legacy_block], given what [read_regs(80, 40)] returned, the
    clock and the baseline file.  The file is returned with the sample:
    it is written before the dict is built. *)
Definition read_legacy_block (read : option (list Z)) (t : datetime)
    (bf : baseline_file) : option Sample * baseline_file :=
  match read with
  | None => (None, bf)
  | Some [] => (None, bf)
  | Some regs =>
      let decoded :=
        r0 <- reg regs 0 ;;
        r6 <- reg regs 6 ;;
        r26 <- reg regs 26 ;;
        r4 <- reg regs 4 ;;
        code <- reg regs 8 ;;
        low <- reg regs 14 ;;
        high <- reg regs 15 ;;
        sf_reg <- reg regs 16 ;;
        Some (Py.round (inject_Z r0 / 10) 1,
              Py.round (inject_Z r6 / 100) 2,
              Py.round (inject_Z r26 / 10) 1,
              r4, code, e_wh_of low high sf_reg)
      in
      match decoded with
      | None => (None, bf)
      | Some (v, f, tc, p, code, e_wh) =>
          let today := day_of t in
          let (energy_today_wh, bf') := daily_energy_wh today e_wh bf in
          (Some {| s_ac_voltage := v;
                   s_grid_freq_hz := f;
                   s_inverter_temp_c := tc;
                   s_power_w := p;
                   s_energy_lifetime_wh := e_wh;
                   s_energy_today_wh := energy_today_wh;
                   s_status_code := code |}, bf')
      end
  end.

(** ** The shared [state] dict *)

(** A chart record, the dict [rec] of the poller. *)
Record Rec : Type := {
  timestamp : datetime;
  power_w : Z;
  energy_wh : Z
}.

Record State : Type := {
  debug : bool;
  dry_run : bool;
  inverter_connected : bool;
  last_upload : option datetime;
  uptime_minutes_today : Q;
  records : list Rec;
  ac_voltage : option Q;
  grid_freq_hz : option Q;
  inverter_temp_c : option Q;
  energy_today_kwh : Q;
  energy_total_kwh : option Q;
  peak_power_w : Z;
  status_code : option Z;
  status_text : string;
  status_class : string;
  dq_text : string;
  dq_class : string;
  _last_sample_ts : option datetime;
  _last_energy_wh : Q;
  _midnight : option datetime
}.

(** The module-level initial value of [state]. *)
Definition initial_state (DEBUG DRY_RUN : bool) : State := {|
  debug := DEBUG; dry_run := DRY_RUN;
  inverter_connected := false;
  last_upload := None; uptime_minutes_today := 0;
  records := [];
  ac_voltage := None; grid_freq_hz := None; inverter_temp_c := None;
  energy_today_kwh := 0; energy_total_kwh := None;
  peak_power_w := 0%Z; status_code := None;
  status_text := "Unknown"; status_class := "muted";
  dq_text := "DATA OK"; dq_class := "ok";
  _last_sample_ts := None; _last_energy_wh := 0;
  _midnight := None
|}.

(** ** Helpers of the poller *)

Definition decode_status (code : Z) : string * string :=
  if (code =? 0)%Z then ("Off", "muted")
  else if (code =? 1)%Z then ("Sleep", "sleep")
  else if (code =? 4)%Z then ("ON", "ok")
  else if (code =? 5)%Z then ("Fault", "error")
  else if (code =? 91)%Z then ("ON", "ok")
  else if (code =? 92)%Z then ("Sleep", "sleep")
  else ("Unknown", "muted").

(** Returns [(status_text, status_class, night_flag)]. *)
Definition detect_night (ac_voltage : option Q) (inverter_connected : bool)
  : string * string * bool :=
  if negb inverter_connected
     || match ac_voltage with None => true | Some v => Py.lt v 100 end
  then ("Night", "night", true)
  else ("ON", "ok", false).

(** Lines 297-300: [pop(0)] when 288 records are held, then [append]. *)
Definition append_record (rec : Rec) (l : list Rec) : list Rec :=
  (if (288 <=? List.length l)%nat then tl l else l) ++ [rec].

(** ** [state.json] and [save_state] *)

Unset Elimination Schemes.
Inductive json : Type :=
| JNull
| JBool (b : bool)
| JNum (q : Q)
| JStr (s : string)
| JTime (t : datetime)
| JArr (l : list json)
| JObj (l : list (string * json)).
Set Elimination Schemes.

Definition jopt {A} (f : A -> json) (o : option A) : json :=
  match o with Some a => f a | None => JNull end.

Definition jint (z : Z) : json := JNum (inject_Z z).

Definition rec_json (r : Rec) : json :=
  JObj [("timestamp", JTime (timestamp r));
        ("power_w", jint (power_w r));
        ("energy_wh", jint (energy_wh r))].

(** The items of [dict(state)], in the insertion order of the dict. *)
Definition state_items (s : State) : list (string * json) :=
  [("debug", JBool (debug s)); ("dry_run", JBool (dry_run s));
   ("inverter_connected", JBool (inverter_connected s));
   ("last_upload", jopt JTime (last_upload s));
   ("uptime_minutes_today", JNum (uptime_minutes_today s));
   ("records", JArr (map rec_json (records s)));
   ("ac_voltage", jopt JNum (ac_voltage s));
   ("grid_freq_hz", jopt JNum (grid_freq_hz s));
   ("inverter_temp_c", jopt JNum (inverter_temp_c s));
   ("energy_today_kwh", JNum (energy_today_kwh s));
   ("energy_total_kwh", jopt JNum (energy_total_kwh s));
   ("peak_power_w", jint (peak_power_w s));
   ("status_code", jopt jint (status_code s));
   ("status_text", JStr (status_text s));
   ("status_class", JStr (status_class s));
   ("dq_text", JStr (dq_text s)); ("dq_class", JStr (dq_class s));
   ("_last_sample_ts", jopt JTime (_last_sample_ts s));
   ("_last_energy_wh", JNum (_last_energy_wh s));
   ("_midnight", jopt JTime (_midnight s))].

(** What [json.dump] hands to [f.write], piece by piece. *)
Inductive chunk : Type :=
| COpen
| CItem (k : string) (v : json)
| CClose.

Definition json_dump (s : State) : list chunk :=
  COpen :: map (fun kv => CItem (fst kv) (snd kv)) (state_items s) ++ [CClose].

(** The file at [STATE_PATH]: absent, or the chunks it holds. *)
Definition state_file := option (list chunk).

Definition content (f : state_file) : list chunk :=
  match f with Some l => l | None => [] end.

(** The file operations of [save_state], in program order. *)
Inductive io_op : Type :=
| OpOpen                 (* [open(STATE_PATH, "w")]: truncates the file *)
| OpWrite (c : chunk)    (* [f.write(chunk)], into the buffer of [f] *)
| OpFlush                (* [f.flush()] *)
| OpFsync.               (* [os.fsync(f.fileno())] *)

Definition save_ops (s : State) : list io_op :=
  OpOpen :: map OpWrite (json_dump s) ++ [OpFlush; OpFsync].

(** The file system as [save_state] sees it: the file at [STATE_PATH]
    and the write buffer of the open file object.  The buffer is taken
    as large as the document; one that fills is written out earlier,
    which leaves part of the document in the file. *)
Definition fs := (state_file * list chunk)%type.

Definition run_op (f : fs) (op : io_op) : fs :=
  match op with
  | OpOpen => (Some [], [])
  | OpWrite c => (fst f, snd f ++ [c])
  | OpFlush => (Some (content (fst f) ++ snd f), [])
  | OpFsync => f
  end.

Definition run_ops (ops : list io_op) (f : fs) : fs := fold_left run_op ops f.

(** Leaving the [with] block closes the file, which flushes it. *)
Definition close (f : fs) : state_file := fst (run_op f OpFlush).

(** [save_state].  [fault] is the index of the operation that raises,
    if one does; the [except] logs and returns.  A failed [open] leaves
    the file alone, a failed flush leaves the buffer unwritten. *)
Definition save_state (fault : option nat) (s : State) (file : state_file)
  : state_file :=
  let ops := save_ops s in
  let done := close (run_ops ops (file, [])) in
  match fault with
  | None => done
  | Some n =>
      let f := run_ops (firstn n ops) (file, []) in
      match nth_error ops n with
      | None => done
      | Some OpOpen => file
      | Some OpFlush => fst f
      | Some _ => close f
      end
  end.

(** What is left at [STATE_PATH] when the process dies after [n]
    operations of a save: the buffer is lost with the process. *)
Definition crash_during_save (n : nat) (s : State) (file : state_file)
  : state_file :=
  fst (run_ops (firstn n (save_ops s)) (file, [])).

(** ** One iteration of [poller_loop] *)

(** What a cycle receives from outside. *)
Record Env : Type := {
  now : datetime;            (* [datetime.now()] at the top of the loop *)
  now_midnight : datetime;   (* the one inside [today_midnight_local] *)
  now_decode : datetime;     (* the one inside [read_legacy_block] *)
  read : option (list Z);    (* what [read_regs(80, 40)] returns *)
  upload_ok : bool;          (* what [pvoutput_addstatus] returns *)
  save_fault : option nat    (* the operation of [save_state] that raises *)
}.

Record World : Type := {
  state : State;
  baseline : baseline_file;
  state_json : state_file
}.

(** [not last_midnight or fromisoformat(last_midnight) < midnight]. *)
Definition rollover_due (s : State) (midnight : datetime) : bool :=
  match _midnight s with
  | None => true
  | Some m => (m <? midnight)%Z
  end.

(** Lines 227-230: the three assignments under the lock. *)
Definition midnight_reset (midnight : datetime) (s : State) : State := {|
  debug := debug s; dry_run := dry_run s;
  inverter_connected := inverter_connected s;
  last_upload := last_upload s;
  uptime_minutes_today := 0;
  records := [];
  ac_voltage := ac_voltage s; grid_freq_hz := grid_freq_hz s;
  inverter_temp_c := inverter_temp_c s;
  energy_today_kwh := energy_today_kwh s;
  energy_total_kwh := energy_total_kwh s;
  peak_power_w := peak_power_w s; status_code := status_code s;
  status_text := status_text s; status_class := status_class s;
  dq_text := dq_text s; dq_class := dq_class s;
  _last_sample_ts := _last_sample_ts s;
  _last_energy_wh := _last_energy_wh s;
  _midnight := Some midnight
|}.

(** Lines 218-230: the rollover removes the baseline file and resets. *)
Definition midnight_check (n : datetime) (s : State) (bf : baseline_file)
  : State * baseline_file :=
  let midnight := today_midnight_local n in
  if rollover_due s midnight
  then (midnight_reset midnight s, NoFile)
  else (s, bf).

(** Lines 245-263: the status and the [state.update({...})]. *)
Definition update_sample (d : Sample) (s : State) : State :=
  let v := s_ac_voltage d in
  let '(st_txt, st_cls) := decode_status (s_status_code d) in
  let '(night_txt, night_cls, is_night) := detect_night (Some v) true in
  let '(st_txt, st_cls) :=
    if is_night then (night_txt, night_cls) else (st_txt, st_cls) in
  {|
    debug := debug s; dry_run := dry_run s;
    inverter_connected := negb is_night;
    last_upload := last_upload s;
    uptime_minutes_today := uptime_minutes_today s;
    records := records s;
    ac_voltage := if Py.between 150 v 270 then Some v else None;
    grid_freq_hz := Some (s_grid_freq_hz d);
    inverter_temp_c := Some (s_inverter_temp_c d);
    energy_today_kwh := Py.round (s_energy_today_wh d / 1000) 3;
    energy_total_kwh := Some (Py.round (s_energy_lifetime_wh d / 1000) 3);
    peak_power_w := Z.max (peak_power_w s) (s_power_w d);
    status_code := Some (s_status_code d);
    status_text := st_txt; status_class := st_cls;
    dq_text := dq_text s; dq_class := dq_class s;
    _last_sample_ts := _last_sample_ts s;
    _last_energy_wh := s_energy_today_wh d;
    _midnight := _midnight s
  |}.

(** The night flag of the cycle, as [update_sample] computes it. *)
Definition is_night_of (d : Sample) : bool :=
  snd (detect_night (Some (s_ac_voltage d)) true).

(** Lines 269-272: the elapsed minutes, capped. *)
Definition elapsed_min (POLL_SECONDS : Z) (t prev_ts : datetime) : Q :=
  Py.min (total_seconds t prev_ts / 60) (inject_Z (POLL_SECONDS * 2) / 60).

(** Lines 266-278: the new value of [uptime_minutes_today]. *)
Definition uptime_after (POLL_SECONDS : Z) (t : datetime) (is_night : bool)
    (p : Z) (prev_ts : option datetime) (uptime : Q) : Q :=
  match prev_ts with
  | Some ts =>
      if negb is_night && (5 <? p)%Z then
        let e := elapsed_min POLL_SECONDS t ts in
        if Py.lt 0 e then Py.round (uptime + e) 1 else uptime
      else uptime
  | None => uptime
  end.

(** Lines 265-300: uptime, the sample timestamp, the upload time and
    the chart record, on the state left by [update_sample]. *)
Definition record_sample (POLL_SECONDS : Z) (e : Env) (d : Sample)
    (prev_ts_str : option datetime) (s : State) : State :=
  let is_night := is_night_of d in
  let rec := {| timestamp := to_seconds (now e);
                power_w := s_power_w d;
                energy_wh := Py.int (s_energy_today_wh d) |} in
  {|
    debug := debug s; dry_run := dry_run s;
    inverter_connected := inverter_connected s;
    last_upload :=
      if negb is_night && upload_ok e
      then Some (to_seconds (now e)) else last_upload s;
    uptime_minutes_today :=
      uptime_after POLL_SECONDS (now e) is_night (s_power_w d) prev_ts_str
                   (uptime_minutes_today s);
    records := append_record rec (records s);
    ac_voltage := ac_voltage s; grid_freq_hz := grid_freq_hz s;
    inverter_temp_c := inverter_temp_c s;
    energy_today_kwh := energy_today_kwh s;
    energy_total_kwh := energy_total_kwh s;
    peak_power_w := peak_power_w s; status_code := status_code s;
    status_text := status_text s; status_class := status_class s;
    dq_text := dq_text s; dq_class := dq_class s;
    _last_sample_ts := Some (now e);
    _last_energy_wh := _last_energy_wh s;
    _midnight := _midnight s
  |}.

(** Lines 303-311: no data this cycle. *)
Definition mark_offline (s : State) : State := {|
  debug := debug s; dry_run := dry_run s;
  inverter_connected := false;
  last_upload := last_upload s;
  uptime_minutes_today := uptime_minutes_today s;
  records := records s;
  ac_voltage := None; grid_freq_hz := None; inverter_temp_c := None;
  energy_today_kwh := energy_today_kwh s;
  energy_total_kwh := energy_total_kwh s;
  peak_power_w := peak_power_w s; status_code := status_code s;
  status_text := "Offline"; status_class := "muted";
  dq_text := dq_text s; dq_class := dq_class s;
  _last_sample_ts := _last_sample_ts s;
  _last_energy_wh := _last_energy_wh s;
  _midnight := _midnight s
|}.

(** Lines 315-318: the age of the last sample, in seconds. *)
Definition age_s (t : datetime) (last_sample_ts : option datetime) : Q :=
  match last_sample_ts with
  | Some ts => total_seconds t ts
  | None => 9999
  end.

(** Lines 319-326: the grade, as [(dq_text, dq_class)]. *)
Definition data_quality (POLL_SECONDS : Z) (age : Q) (connected : bool)
  : string * string :=
  if negb connected then ("OFFLINE", "dq_off")
  else if Py.lt age (inject_Z POLL_SECONDS * (3 # 2)) then ("LIVE", "dq_ok")
  else if Py.lt age (inject_Z POLL_SECONDS * 3) then ("STALE", "dq_warn")
  else ("NO DATA", "dq_off").

(** Lines 313-329: grading, always run. *)
Definition grade (POLL_SECONDS : Z) (t : datetime) (s : State) : State :=
  let '(txt, cls) :=
    data_quality POLL_SECONDS (age_s t (_last_sample_ts s))
                 (inverter_connected s) in
  {|
    debug := debug s; dry_run := dry_run s;
    inverter_connected := inverter_connected s;
    last_upload := last_upload s;
    uptime_minutes_today := uptime_minutes_today s;
    records := records s;
    ac_voltage := ac_voltage s; grid_freq_hz := grid_freq_hz s;
    inverter_temp_c := inverter_temp_c s;
    energy_today_kwh := energy_today_kwh s;
    energy_total_kwh := energy_total_kwh s;
    peak_power_w := peak_power_w s; status_code := status_code s;
    status_text := status_text s; status_class := status_class s;
    dq_text := txt; dq_class := cls;
    _last_sample_ts := _last_sample_ts s;
    _last_energy_wh := _last_energy_wh s;
    _midnight := _midnight s
  |}.

(** The body of the [while] loop, up to the wait. *)
Definition poll_cycle (POLL_SECONDS : Z) (e : Env) (w : World) : World :=
  let '(s1, bf1) := midnight_check (now_midnight e) (state w) (baseline w) in
  let '(data, bf2) := read_legacy_block (read e) (now_decode e) bf1 in
  let s2 :=
    match data with
    | Some d =>
        record_sample POLL_SECONDS e d (_last_sample_ts s1)
                      (update_sample d s1)
    | None => mark_offline s1
    end in
  {| state := grade POLL_SECONDS (now e) s2;
     baseline := bf2;
     state_json := save_state (save_fault e) s2 (state_json w) |}.

(** The loop: one cycle per environment, in order. *)
Definition poller_loop (POLL_SECONDS : Z) (es : list Env) (w : World) : World :=
  fold_left (fun w e => poll_cycle POLL_SECONDS e w) es w.

(** ** Reference values *)

(** The lifetime counter a block encodes. *)
Definition lifetime_wh (regs : list Z) : Q :=
  e_wh_of (nth 14 regs 0%Z) (nth 15 regs 0%Z) (nth 16 regs 0%Z).

(** The sample a block of 27 registers or more decodes to. *)
Definition decoded_sample (regs : list Z) (t : datetime) (bf : baseline_file)
  : Sample := {|
  s_ac_voltage := nth 0 regs 0%Z # 10;
  s_grid_freq_hz := nth 6 regs 0%Z # 100;
  s_inverter_temp_c := nth 26 regs 0%Z # 10;
  s_power_w := nth 4 regs 0%Z;
  s_energy_lifetime_wh := lifetime_wh regs;
  s_energy_today_wh := energy_today_of (day_of t) (lifetime_wh regs) bf;
  s_status_code := nth 8 regs 0%Z
|}.

(** A block as the inverter sends it: 231.4 V, 50.02 Hz, 41.5 C,
    1234 W, status 4, counter words 1 and 57920, scale factor 0. *)
Definition sample_regs : list Z :=
  [2314; 0; 0; 0; 1234; 0; 5002; 0; 4; 0; 0; 0; 0; 0; 1; 57920; 0; 0; 0; 0;
   0; 0; 0; 0; 0; 0; 415; 0; 0; 0; 0; 0; 0; 0; 0; 0; 0; 0; 0; 0]%Z.

(** The same block with the scale-factor register at 65535, that is -1. *)
Definition sample_regs_sf : list Z :=
  firstn 16 sample_regs ++ [65535%Z] ++ skipn 17 sample_regs.

(** The same block with another voltage and power. *)
Definition regs_with (v p : Z) : list Z :=
  [v] ++ skipn 1 (firstn 4 sample_regs) ++ [p] ++ skipn 5 sample_regs.

(** A cycle whose three clock readings agree, with a working upload
    and no fault of the state file. *)
Definition env_at (t : datetime) (r : option (list Z)) : Env := {|
  now := t; now_midnight := t; now_decode := t;
  read := r; upload_ok := true; save_fault := None
|}.

(** [s] seconds after midnight of day [d]. *)
Definition at_time (d s : Z) : datetime := (d * us_per_day + s * us_per_second)%Z.

(** The world of a fresh start: no file on disk. *)
Definition fresh_world : World := {|
  state := initial_state false false;
  baseline := NoFile;
  state_json := None
|}.

(** The state the cycle grades: after a sample, or marked offline. *)
Definition before_grading (POLL_SECONDS : Z) (e : Env) (w : World) : State :=
  let '(s1, bf1) := midnight_check (now_midnight e) (state w) (baseline w) in
  match fst (read_legacy_block (read e) (now_decode e) bf1) with
  | Some d =>
      record_sample POLL_SECONDS e d (_last_sample_ts s1) (update_sample d s1)
  | None => mark_offline s1
  end.

(** The sample of a cycle whose read gave a block long enough. *)
Definition cycle_sample (e : Env) (w : World) (regs : list Z) : Sample :=
  decoded_sample regs (now_decode e)
    (snd (midnight_check (now_midnight e) (state w) (baseline w))).

(** A run of appends to the history buffer, oldest first. *)
Definition appends (l : list Rec) (buf : list Rec) : list Rec :=
  fold_left (fun b r => append_record r b) l buf.

(** A record per second, for a buffer to fill. *)
Definition rec_at (n : nat) : Rec :=
  {| timestamp := at_time 20000 (Z.of_nat n); power_w := 0; energy_wh := 0 |}.

(** The same cycle with another fault of the state file. *)
Definition with_fault (f : option nat) (e : Env) : Env := {|
  now := now e; now_midnight := now_midnight e; now_decode := now_decode e;
  read := read e; upload_ok := upload_ok e; save_fault := f
|}.

(** Noon of day 20000: a first sample of 50 W at 231.4 V. *)
Definition world_first : World :=
  poll_cycle 300 (env_at (at_time 20000 43200) (Some (regs_with 2314 50)))
             fresh_world.

(** Noon of the day before: a sample of 3000 W. *)
Definition world_eve : World :=
  poll_cycle 300 (env_at (at_time 19999 43200) (Some (regs_with 2314 3000)))
             fresh_world.

(** [exists z, q == z / 10]: the value has one decimal. *)
Definition one_decimal (q : Q) : Prop := exists z : Z, q == z # 10.


(** * The rest of the program *)

(** The helper [u32_from_words], the Modbus read [read_regs], the upload
    [pvoutput_addstatus], [load_state] and the [/data] route on the
    [state] dict, what the page derives from the state, and the iteration
    of the loop with the device and the reporting service in it.  The
    text of a response is taken as ASCII; a state file is the chunks
    [json_dump] writes, so a file that is no JSON object is one that
    does not load. *)

(** ** [u32_from_words] *)

(** [((int(high) & 0xFFFF) << 16) | (int(low) & 0xFFFF)]. *)
Definition u32_from_words (low high : Z) : Z :=
  Z.lor (Z.shiftl (Z.land high 65535) 16) (Z.land low 65535).

(** A value a 16-bit holding register can carry. *)
Definition is_reg16 (r : Z) : Prop := (0 <= r < 65536)%Z.

(** ** [read_regs] *)

(** What the device does with [read_holding_registers]. *)
Inductive modbus_reply : Type :=
| NoReply                        (* a falsy [r] *)
| ErrorReply                     (* [r.isError()] *)
| Registers (l : list Z)         (* [r.registers] *)
| ReadRaises.                    (* the call raises *)

Record Modbus : Type := {
  connects : bool;               (* what [c.connect()] returns *)
  reply : modbus_reply
}.

(** The calls made on the client, in order. *)
Inductive modbus_call : Type :=
| CallConnect
| CallRead (start count unit : Z)
| CallClose.

(** Where a call of a function ends. *)
Inductive outcome (A : Type) : Type :=
| Returned (a : A)
| Raised.
Arguments Returned {A} a.
Arguments Raised {A}.

(** [read_regs(start, count)]: the outcome and the calls made.  The
    [finally] closes the client on every path. *)
Definition read_regs (MODBUS_UNIT_ID : Z) (start count : Z) (m : Modbus)
  : outcome (option (list Z)) * list modbus_call :=
  if negb (connects m) then (Returned None, [CallConnect; CallClose])
  else
    let calls := [CallConnect; CallRead start count MODBUS_UNIT_ID; CallClose] in
    match reply m with
    | NoReply => (Returned None, calls)
    | ErrorReply => (Returned None, calls)
    | Registers l => (Returned (Some l), calls)
    | ReadRaises => (Raised, calls)
    end.

(** ** [pvoutput_addstatus] *)

Record Config : Type := {
  DRY_RUN : bool;
  PV_API_KEY : string;
  PV_SYSTEM_ID : string;
  MODBUS_UNIT_ID : Z
}.

(** The form of the request: [d], [t], [v1], [v2] and the optional
    [v5] and [v6]. *)
Record Form : Type := {
  form_d : Z;                    (* [now.strftime("%Y%m%d")], the day *)
  form_t : Z;                    (* [now.strftime("%H:%M")], the minute *)
  form_v1 : Z;
  form_v2 : Z;
  form_v5 : option Q;
  form_v6 : option Q
}.

Record Request : Type := {
  apikey : string;               (* header [X-Pvoutput-Apikey] *)
  systemid : string;             (* header [X-Pvoutput-SystemId] *)
  form : Form
}.

(** What [requests.post] does: a response, or an exception. *)
Inductive http_result : Type :=
| Response (code : Z) (text : string)
| PostRaises.

(** [c.upper()] on a letter of ASCII. *)
Definition upper_char (c : ascii) : ascii :=
  let n := nat_of_ascii c in
  if ((97 <=? n) && (n <=? 122))%nat then ascii_of_nat (n - 32) else c.

Fixpoint upper (s : string) : string :=
  match s with
  | EmptyString => EmptyString
  | String c s' => String (upper_char c) (upper s')
  end.

Fixpoint startswith (s p : string) {struct p} : bool :=
  match p with
  | EmptyString => true
  | String c p' =>
      match s with
      | EmptyString => false
      | String c' s' => Ascii.eqb c' c && startswith s' p'
      end
  end.

(** The minute of the day, for [%H:%M]. *)
Definition minute_of (t : datetime) : Z :=
  ((t mod us_per_day) / (60 * us_per_second))%Z.

(** [pvoutput_addstatus(power_w, energy_wh, voltage_v, temp_c)]: the
    boolean it returns and the request it makes, if any. *)
Definition pvoutput_addstatus (cfg : Config) (t : datetime) (http : http_result)
    (power_w energy_wh : Q) (voltage_v temp_c : option Q)
  : bool * option Request :=
  if DRY_RUN cfg then (true, None)
  else if String.eqb (PV_API_KEY cfg) "" || String.eqb (PV_SYSTEM_ID cfg) ""
  then (false, None)
  else
    let rq := {| apikey := PV_API_KEY cfg; systemid := PV_SYSTEM_ID cfg;
                 form := {| form_d := day_of t; form_t := minute_of t;
                            form_v1 := Py.round_half_even energy_wh;
                            form_v2 := Py.round_half_even power_w;
                            form_v5 := option_map (fun x => Py.round x 1) temp_c;
                            form_v6 := option_map (fun x => Py.round x 1) voltage_v
                         |} |} in
    match http with
    | Response code text =>
        ((code =? 200)%Z && negb (startswith (upper text) "ERROR"), Some rq)
    | PostRaises => (false, Some rq)
    end.

(** ** [load_state] and the [/data] route *)

(** A Python dict with string keys, in insertion order. *)
Definition dict := list (string * json).

(** [d[k] = v]: the key keeps its place, a new key goes last. *)
Fixpoint dict_set (k : string) (v : json) (d : dict) : dict :=
  match d with
  | [] => [(k, v)]
  | (k', v') :: d' =>
      if String.eqb k' k then (k', v) :: d' else (k', v') :: dict_set k v d'
  end.


(** [d.update(pairs)], pair by pair. *)
Definition dict_update (d : dict) (pairs : list (string * json)) : dict :=
  fold_left (fun d kv => dict_set (fst kv) (snd kv) d) pairs d.

(** The items between the braces, up to the closing one. *)
Fixpoint parse_items (cs : list chunk) : option (list (string * json)) :=
  match cs with
  | [CClose] => Some []
  | CItem k v :: cs' =>
      match parse_items cs' with
      | Some kvs => Some ((k, v) :: kvs)
      | None => None
      end
  | _ => None
  end.

(** [json.load(f)] on the chunks of a file: the object they spell, a
    later pair of a key replacing an earlier one; [None] when it raises. *)
Definition json_load (cs : list chunk) : option dict :=
  match cs with
  | COpen :: cs' => option_map (dict_update []) (parse_items cs')
  | _ => None
  end.

(** [load_state], on the [state] dict. *)
Definition load_state (file : state_file) (st : dict) : dict :=
  match file with
  | None => st
  | Some cs =>
      match json_load cs with
      | Some loaded =>
          dict_set "dq_class" (JStr "dq_warn")
            (dict_set "dq_text" (JStr "STARTING") (dict_update st loaded))
      | None => st
      end
  end.



(** ** The dashboard page *)

(** [divmod(int(uptime_min), 60)]. *)
Definition uptime_hm (uptime_min : Q) : Z * Z :=
  ((Py.int uptime_min / 60)%Z, (Py.int uptime_min mod 60)%Z).


(** ** The whole iteration *)

(** What an iteration of the loop meets outside: four clock readings,
    the device, the reporting service and the state file. *)
Record Outside : Type := {
  clock_now : datetime;
  clock_midnight : datetime;
  clock_decode : datetime;
  clock_upload : datetime;
  modbus : Modbus;
  http : http_result;
  file_fault : option nat
}.

(** Lines 284-289: the upload of a cycle, [(False, None)] when the
    cycle has no sample or is night-classified. *)
Definition cycle_upload (cfg : Config) (o : Outside)
    (data : option Sample) : bool * option Request :=
  match data with
  | Some d =>
      if is_night_of d then (false, None)
      else pvoutput_addstatus cfg (clock_upload o) (http o)
             (inject_Z (s_power_w d)) (s_energy_today_wh d)
             (Some (s_ac_voltage d)) (Some (s_inverter_temp_c d))
  | None => (false, None)
  end.

(** The cycle of [poll_cycle] the iteration runs once the read has
    returned [r] and the upload has answered [ok]. *)
Definition env_of (o : Outside) (r : option (list Z)) (ok : bool) : Env := {|
  now := clock_now o; now_midnight := clock_midnight o;
  now_decode := clock_decode o;
  read := r; upload_ok := ok; save_fault := file_fault o
|}.

(** One iteration with the device and the service in it: the world it
    leaves, the calls made on the Modbus client and the request sent.
    A read that raises ends the [try] at once ("Poll error"). *)
Definition poll_iteration (cfg : Config) (POLL_SECONDS : Z) (o : Outside)
    (w : World) : World * list modbus_call * option Request :=
  let '(s1, bf1) := midnight_check (clock_midnight o) (state w) (baseline w) in
  match read_regs (MODBUS_UNIT_ID cfg) 80 40 (modbus o) with
  | (Raised, calls) =>
      ({| state := s1; baseline := bf1; state_json := state_json w |},
       calls, None)
  | (Returned r, calls) =>
      let up := cycle_upload cfg o
                  (fst (read_legacy_block r (clock_decode o) bf1)) in
      (poll_cycle POLL_SECONDS (env_of o r (fst up)) w, calls, snd up)
  end.



(** The records are in the order of their timestamps. *)
Definition chronological (l : list Rec) : Prop :=
  StronglySorted Z.le (map timestamp l).

(** What [read_regs] returned cannot be decoded. *)
Definition undecodable (r : option (list Z)) : Prop :=
  r = None \/ exists regs, r = Some regs /\ (List.length regs < 27)%nat.

(** The chunk of an item. *)
Definition item_chunk (kv : string * json) : chunk := CItem (fst kv) (snd kv).


(** * Properties *)

(** ** Rounding *)

Section Rounding.

Lemma round_half_even_comp (x y : Q) :
  x == y -> Py.round_half_even x = Py.round_half_even y.
Proof.
  intros E. unfold Py.round_half_even.
  rewrite (Qfloor_comp _ _ E).
  assert (C : Qcompare (x - inject_Z (Qfloor y)) (1 # 2)
              = Qcompare (y - inject_Z (Qfloor y)) (1 # 2)).
  { apply Qcompare_comp; [rewrite E|]; reflexivity. }
  now rewrite C.
Qed.

Lemma round_half_even_Z (z : Z) : Py.round_half_even (inject_Z z) = z.
Proof.
  unfold Py.round_half_even. rewrite Qfloor_Z.
  assert (C : Qcompare (inject_Z z - inject_Z z) (1 # 2) = Lt).
  { apply Qlt_alt.
    setoid_replace (inject_Z z - inject_Z z) with 0 by ring. reflexivity. }
  now rewrite C.
Qed.



Lemma round_comp (x y : Q) (nd : nat) : x == y -> Py.round x nd = Py.round y nd.
Proof.
  intros E. unfold Py.round. f_equal.
  apply round_half_even_comp. now rewrite E.
Qed.

(** A value already on the grid of [nd] decimals is left as it is. *)
Lemma round_grid (z : Z) (nd : nat) :
  Py.round (z # 10 ^ Pos.of_nat nd) nd = (z # 10 ^ Pos.of_nat nd).
Proof.
  unfold Py.round. f_equal.
  rewrite <- (round_half_even_Z z) at 2. apply round_half_even_comp.
  rewrite Qmult_inject_Z_r. apply Qreduce_den_inject_Z_r.
Qed.


(** [round(r / 10.0, 1)] is [r / 10], [round(r / 100.0, 2)] is [r / 100]. *)
Lemma round_tenths (r : Z) : Py.round (inject_Z r / 10) 1 = (r # 10).
Proof.
  transitivity (Py.round (r # 10) 1); [|exact (round_grid r 1)].
  apply round_comp. now rewrite (Qmake_Qdiv r 10).
Qed.

Lemma round_hundredths (r : Z) : Py.round (inject_Z r / 100) 2 = (r # 100).
Proof.
  transitivity (Py.round (r # 100) 2); [|exact (round_grid r 2)].
  apply round_comp. now rewrite (Qmake_Qdiv r 100).
Qed.

End Rounding.

(** ** The decoder *)

Section Decoder.

Lemma reg_nth (regs : list Z) (i : nat) :
  (i < List.length regs)%nat -> reg regs i = Some (nth i regs 0%Z).
Proof. intros L. unfold reg. now apply nth_error_nth'. Qed.

(** A block of 27 registers or more always decodes, to this sample. *)
Lemma read_legacy_block_decodes (regs : list Z) (t : datetime)
    (bf : baseline_file) :
  (27 <= List.length regs)%nat ->
  read_legacy_block (Some regs) t bf =
  (Some (decoded_sample regs t bf),
   baseline_after (day_of t) (lifetime_wh regs) bf).
Proof.
  intros L. unfold read_legacy_block.
  destruct regs as [|r0 rest] eqn:E; [cbn in L; lia|]. rewrite <- E in *.
  rewrite !reg_nth by lia. cbn [bind].
  rewrite !round_tenths, round_hundredths. reflexivity.
Qed.

(** A block too short to index, an empty block and a failed read give
    no sample and leave the baseline file alone. *)
Lemma read_legacy_block_short (regs : list Z) (t : datetime)
    (bf : baseline_file) :
  (List.length regs < 27)%nat -> read_legacy_block (Some regs) t bf = (None, bf).
Proof.
  intros L. unfold read_legacy_block.
  destruct regs as [|r0 rest] eqn:E; [reflexivity|]. rewrite <- E in *.
  assert (N : reg regs 26 = None) by (apply nth_error_None; lia).
  destruct (reg regs 0); cbn [bind]; [|reflexivity].
  destruct (reg regs 6); cbn [bind]; [|reflexivity].
  now rewrite N.
Qed.

End Decoder.

Example sample_regs_lifetime : lifetime_wh sample_regs == 123456.
Proof. reflexivity. Qed.

Example sample_regs_sf_lifetime : lifetime_wh sample_regs_sf == 123456 # 10.
Proof. reflexivity. Qed.



(** ** The daily-energy baseline *)

Section Baseline.

Lemma py_max_nonneg (x : Q) : 0 <= Py.max 0 x.
Proof. unfold Py.max. destruct (Qlt_le_dec 0 x); lra. Qed.

Lemma py_max_mono (x y : Q) : x <= y -> Py.max 0 x <= Py.max 0 y.
Proof.
  intros L. unfold Py.max.
  destruct (Qlt_le_dec 0 x), (Qlt_le_dec 0 y); lra.
Qed.

(** At or below the baseline the difference is clipped to the literal 0. *)
Lemma py_max_clip (x : Q) : x <= 0 -> Py.max 0 x = 0.
Proof.
  intros L. unfold Py.max. destruct (Qlt_le_dec 0 x); [lra|reflexivity].
Qed.

Lemma day_is_same (today : Z) : day_is (Some today) today = true.
Proof. cbn. apply Z.eqb_refl. Qed.

Lemma day_is_other (d : option Z) (today : Z) :
  d <> Some today -> day_is d today = false.
Proof.
  intros N. destruct d as [d'|]; cbn; [|reflexivity].
  apply Z.eqb_neq. congruence.
Qed.

Lemma energy_today_nonneg (today : Z) (e : Q) (bf : baseline_file) :
  0 <= energy_today_of today e bf.
Proof.
  destruct bf as [| |d wh]; cbn; try lra.
  destruct (day_is d today); [|lra].
  destruct wh; try apply py_max_nonneg; lra.
Qed.

Lemma energy_today_mono (today : Z) (e e' : Q) (bf : baseline_file) :
  e <= e' -> energy_today_of today e bf <= energy_today_of today e' bf.
Proof.
  intros L. destruct bf as [| |d wh]; cbn; try lra.
  destruct (day_is d today); [|lra].
  destruct wh; try lra; apply py_max_mono; lra.
Qed.

End Baseline.

(** C3.  The energy of today is never negative; with no baseline file,
    or one of another day, the call writes the baseline (today, lifetime)
    and returns 0; a baseline of today is left as it is, and against it
    the energy of today does not decrease when the lifetime counter
    grows. *)
Theorem daily_energy_properties (today : Z) (e : Q) (bf : baseline_file) :
  0 <= fst (daily_energy_wh today e bf) /\
  (bf = NoFile \/ (exists d wh, bf = Doc d wh /\ d <> Some today) ->
   daily_energy_wh today e bf = (0, Doc (Some today) (WhNum e))) /\
  (forall wh, bf = Doc (Some today) wh ->
   snd (daily_energy_wh today e bf) = bf) /\
  (forall e', e <= e' ->
   fst (daily_energy_wh today e bf) <= fst (daily_energy_wh today e' bf)).
Proof.
  unfold daily_energy_wh. cbn [fst snd]. repeat split.
  - apply energy_today_nonneg.
  - intros [->|(d & wh & -> & N)]; [reflexivity|].
    cbn. now rewrite (day_is_other _ _ N).
  - intros wh ->. cbn [baseline_after]. now rewrite day_is_same.
  - intros e' L. now apply energy_today_mono.
Qed.

Lemma daily_energy_properties_witness :
  daily_energy_wh 20000 123456 NoFile
    = (0, Doc (Some 20000%Z) (WhNum 123456)) /\
  daily_energy_wh 20000 123456 (Doc (Some 19999%Z) (WhNum 120000))
    = (0, Doc (Some 20000%Z) (WhNum 123456)) /\
  fst (daily_energy_wh 20000 123456 (Doc (Some 20000%Z) (WhNum 123000)))
    <= fst (daily_energy_wh 20000 123999 (Doc (Some 20000%Z) (WhNum 123000))).
Proof.
  split; [|split].
  - apply (daily_energy_properties 20000 123456 NoFile). now left.
  - apply (daily_energy_properties 20000 123456
             (Doc (Some 19999%Z) (WhNum 120000))).
    right. exists (Some 19999%Z), (WhNum 120000).
    split; [reflexivity|discriminate].
  - apply (daily_energy_properties 20000 123456
             (Doc (Some 20000%Z) (WhNum 123000))).
    unfold Qle; cbn; lia.
Defined.

(** With the baseline of the scenario in place the later samples of the
    day report the growth of the counter. *)
Example energy_today_grows :
  fst (daily_energy_wh 20000 123999 (Doc (Some 20000%Z) (WhNum 123456)))
  == 543.
Proof. reflexivity. Qed.

(** C2, as stated, fails: a reading below the baseline of
    today does not rewrite the baseline file with the new reading. *)
Lemma rollback_not_reanchored :
  fst (daily_energy_wh 20000 500 (Doc (Some 20000%Z) (WhNum 1000))) == 0 /\
  snd (daily_energy_wh 20000 500 (Doc (Some 20000%Z) (WhNum 1000)))
    <> Doc (Some 20000%Z) (WhNum 500).
Proof. split; [reflexivity|]. cbn. discriminate. Qed.

(** C2, amended.  When the lifetime counter falls below the baseline
    stored for today, the call returns 0 Wh, never a negative value, and
    leaves the stored baseline as it is; the energy of today then stays
    0 for every reading up to the stored baseline. *)
Theorem rollback_returns_zero (today : Z) (e w : Q) :
  e < w ->
  daily_energy_wh today e (Doc (Some today) (WhNum w))
    = (0, Doc (Some today) (WhNum w)) /\
  (forall e', e' <= w ->
   fst (daily_energy_wh today e'
          (snd (daily_energy_wh today e (Doc (Some today) (WhNum w))))) = 0).
Proof.
  intros L. unfold daily_energy_wh. cbn [fst snd energy_today_of baseline_after].
  rewrite day_is_same. split.
  - rewrite py_max_clip by lra. reflexivity.
  - intros e' L'. cbn [energy_today_of]. rewrite day_is_same.
    apply py_max_clip. lra.
Qed.

Lemma rollback_returns_zero_witness :
  daily_energy_wh 20000 500 (Doc (Some 20000%Z) (WhNum 1000))
    = (0, Doc (Some 20000%Z) (WhNum 1000)).
Proof.
  apply (rollback_returns_zero 20000 500 1000). unfold Qlt; cbn; lia.
Defined.

(** ** The poll cycle *)

Section PollCycle.

Variable POLL_SECONDS : Z.

Lemma py_lt_iff (x b : Q) : Py.lt x b = true <-> x < b.
Proof.
  unfold Py.lt. rewrite negb_true_iff, <- not_true_iff_false, Qle_bool_iff.
  split; [apply Qnot_le_lt|apply Qlt_not_le].
Qed.

Lemma py_lt_false_iff (x b : Q) : Py.lt x b = false <-> b <= x.
Proof.
  unfold Py.lt. rewrite negb_false_iff. apply Qle_bool_iff.
Qed.



(** What [state.update] leaves in the fields the claims speak of. *)
Lemma update_sample_fields (d : Sample) (s : State) :
  let s' := update_sample d s in
  ac_voltage s' =
    (if Py.between 150 (s_ac_voltage d) 270
     then Some (s_ac_voltage d) else None) /\
  inverter_connected s' = negb (is_night_of d) /\
  (is_night_of d = true -> status_text s' = "Night") /\
  peak_power_w s' = Z.max (peak_power_w s) (s_power_w d) /\
  uptime_minutes_today s' = uptime_minutes_today s /\
  records s' = records s /\
  _last_sample_ts s' = _last_sample_ts s /\
  _midnight s' = _midnight s.
Proof.
  unfold update_sample, is_night_of.
  destruct (decode_status _) as [txt cls].
  destruct (detect_night _ _) as [[ntxt ncls] night] eqn:N.
  cbn [snd].
  assert (T : night = true -> ntxt = "Night").
  { intros ->. unfold detect_night in N. destruct (_ || _); now inversion N. }
  destruct night; repeat split; cbn; auto; discriminate.
Qed.

Lemma grade_fields (t : datetime) (s : State) :
  let s' := grade POLL_SECONDS t s in
  (dq_text s', dq_class s') =
    data_quality POLL_SECONDS (age_s t (_last_sample_ts s))
                 (inverter_connected s) /\
  inverter_connected s' = inverter_connected s /\
  ac_voltage s' = ac_voltage s /\
  status_text s' = status_text s /\
  peak_power_w s' = peak_power_w s /\
  uptime_minutes_today s' = uptime_minutes_today s /\
  records s' = records s /\
  _last_sample_ts s' = _last_sample_ts s /\
  _midnight s' = _midnight s.
Proof.
  unfold grade. destruct (data_quality _ _ _) as [txt cls]. now repeat split.
Qed.

Lemma poll_cycle_state (e : Env) (w : World) :
  state (poll_cycle POLL_SECONDS e w)
  = grade POLL_SECONDS (now e) (before_grading POLL_SECONDS e w).
Proof.
  unfold poll_cycle, before_grading.
  destruct (midnight_check _ _ _) as [s1 bf1].
  destruct (read_legacy_block _ _ _) as [data bf2]. reflexivity.
Qed.

Lemma before_grading_sample (e : Env) (w : World) (regs : list Z) :
  read e = Some regs -> (27 <= List.length regs)%nat ->
  before_grading POLL_SECONDS e w =
  record_sample POLL_SECONDS e (cycle_sample e w regs)
    (_last_sample_ts (fst (midnight_check (now_midnight e) (state w) (baseline w))))
    (update_sample (cycle_sample e w regs)
       (fst (midnight_check (now_midnight e) (state w) (baseline w)))).
Proof.
  intros R L. unfold before_grading, cycle_sample.
  destruct (midnight_check _ _ _) as [s1 bf1]. cbn [fst snd].
  rewrite R, read_legacy_block_decodes by exact L. reflexivity.
Qed.

End PollCycle.





(** ** Data quality *)




(** ** The history buffer *)

Section History.

Lemma tl_skipn {A} (k : nat) (l : list A) : tl (skipn k l) = skipn (S k) l.
Proof.
  revert l. induction k as [|k IH]; intros [|a l]; try reflexivity.
  cbn [skipn]. rewrite IH. now destruct l.
Qed.

Lemma appends_snoc (l : list Rec) (r : Rec) (buf : list Rec) :
  appends (l ++ [r]) buf = append_record r (appends l buf).
Proof. unfold appends. now rewrite fold_left_app. Qed.

Lemma append_record_length (r : Rec) (l : list Rec) :
  (List.length l <= 288)%nat -> (List.length (append_record r l) <= 288)%nat.
Proof.
  intros L. unfold append_record.
  destruct (Nat.leb_spec 288 (List.length l)) as [G|G];
    rewrite length_app; cbn [List.length]; [|lia].
  destruct l; cbn [tl List.length] in *; lia.
Qed.

(** The buffer after a run of appends from empty: the last 288 of them. *)
Lemma appends_last (l : list Rec) :
  appends l [] = skipn (List.length l - 288) l.
Proof.
  induction l as [|r l IH] using rev_ind; [reflexivity|].
  rewrite appends_snoc, IH. unfold append_record.
  rewrite length_skipn, length_app. cbn [List.length].
  destruct (Nat.leb_spec 288 (List.length l - (List.length l - 288))) as [G|G].
  - rewrite tl_skipn.
    replace (List.length l + 1 - 288)%nat with (S (List.length l - 288)) by lia.
    rewrite skipn_app.
    replace (S (List.length l - 288) - List.length l)%nat with 0%nat by lia.
    reflexivity.
  - replace (List.length l - 288)%nat with 0%nat by lia.
    replace (List.length l + 1 - 288)%nat with 0%nat by lia.
    reflexivity.
Qed.

Lemma record_sample_records (P : Z) (e : Env) (d : Sample)
    (prev : option datetime) (s : State) :
  records (record_sample P e d prev s) =
  append_record {| timestamp := to_seconds (now e);
                   power_w := s_power_w d;
                   energy_wh := Py.int (s_energy_today_wh d) |} (records s).
Proof. reflexivity. Qed.

Lemma midnight_check_records (n : datetime) (s : State) (bf : baseline_file) :
  (List.length (records s) <= 288)%nat ->
  (List.length (records (fst (midnight_check n s bf))) <= 288)%nat.
Proof.
  intros L. unfold midnight_check.
  destruct (rollover_due _ _); cbn; [lia|exact L].
Qed.

Lemma poll_cycle_records_bounded (P : Z) (e : Env) (w : World) :
  (List.length (records (state w)) <= 288)%nat ->
  (List.length (records (state (poll_cycle P e w))) <= 288)%nat.
Proof.
  intros L. rewrite poll_cycle_state.
  destruct (grade_fields P (now e) (before_grading P e w))
    as (_ & _ & _ & _ & _ & _ & -> & _).
  unfold before_grading.
  pose proof (midnight_check_records (now_midnight e) _ (baseline w) L) as M.
  destruct (midnight_check _ _ _) as [s1 bf1]. cbn [fst] in M.
  destruct (fst (read_legacy_block _ _ _)) as [d|]; [|exact M].
  rewrite record_sample_records. apply append_record_length.
  now destruct (update_sample_fields d s1) as (_ & _ & _ & _ & _ & -> & _).
Qed.

End History.

(** C8.  After any run of appends the history buffer holds at most 288
    records: the most recent ones, in the order of their insertion.  An
    append to a full buffer drops the oldest record first, so after 289
    appends the first record is gone and the other 288 remain in order.
    A poll cycle keeps the bound. *)
Theorem history_bounded (l : list Rec) :
  (List.length (appends l []) <= 288)%nat /\
  appends l [] = skipn (List.length l - 288) l /\
  (forall r0 rest, l = r0 :: rest -> List.length rest = 288%nat ->
     appends l [] = rest /\ (~ In r0 rest -> ~ In r0 (appends l []))) /\
  (forall r buf, (288 <= List.length buf)%nat ->
     append_record r buf = tl buf ++ [r]) /\
  (forall P e w, (List.length (records (state w)) <= 288)%nat ->
     (List.length (records (state (poll_cycle P e w))) <= 288)%nat).
Proof.
  split; [|split; [|split; [|split]]].
  - rewrite appends_last, length_skipn. lia.
  - apply appends_last.
  - intros r0 rest -> R.
    assert (E : appends (r0 :: rest) [] = rest).
    { rewrite appends_last. cbn [List.length]. rewrite R. reflexivity. }
    rewrite E. auto.
  - intros r buf L. unfold append_record.
    now destruct (Nat.leb_spec 288 (List.length buf)); [|lia].
  - apply poll_cycle_records_bounded.
Qed.

Lemma history_bounded_witness :
  appends (map rec_at (seq 0 289)) [] = map rec_at (seq 1 288).
Proof.
  destruct (history_bounded (map rec_at (seq 0 289))) as (_ & _ & H & _).
  apply (H (rec_at 0) (map rec_at (seq 1 288))).
  - reflexivity.
  - now rewrite length_map, length_seq.
Defined.

(** ** Uptime *)

Section Uptime.

Variable POLL_SECONDS : Z.

Lemma py_min_cases (a b : Q) :
  (b < a /\ Py.min a b = b) \/ (a <= b /\ Py.min a b = a).
Proof. unfold Py.min. destruct (Qlt_le_dec b a); auto. Qed.

(** The two outcomes of lines 266-278. *)
Lemma uptime_after_spec (t : datetime) (night : bool) (p : Z)
    (prev : option datetime) (u : Q) :
  (uptime_after POLL_SECONDS t night p prev u = u /\
   forall ts, prev = Some ts -> night = false -> (5 < p)%Z ->
              ~ 0 < elapsed_min POLL_SECONDS t ts) \/
  (exists ts, prev = Some ts /\ night = false /\ (5 < p)%Z /\
              0 < elapsed_min POLL_SECONDS t ts /\
              uptime_after POLL_SECONDS t night p prev u
              = Py.round (u + elapsed_min POLL_SECONDS t ts) 1).
Proof.
  unfold uptime_after. destruct prev as [ts|].
  2:{ left. split; [reflexivity|]. intros ts E. discriminate E. }
  destruct night.
  { left. split; [reflexivity|]. intros ts' _ E. discriminate E. }
  cbn [negb andb]. destruct (Z.ltb_spec 5 p) as [G|G].
  2:{ left. split; [reflexivity|]. intros ts' _ _ L. lia. }
  destruct (Py.lt 0 (elapsed_min POLL_SECONDS t ts)) eqn:E.
  - right. exists ts. apply py_lt_iff in E. now repeat split.
  - left. split; [reflexivity|]. intros ts' [= <-] _ _.
    apply py_lt_false_iff in E. now apply Qle_not_lt.
Qed.

Lemma one_decimal_round (x : Q) : one_decimal (Py.round x 1).
Proof. eexists. unfold Py.round. reflexivity. Qed.


Lemma no_rollover (n : datetime) (s : State) (bf : baseline_file) :
  rollover_due s (today_midnight_local n) = false ->
  midnight_check n s bf = (s, bf).
Proof. intros R. unfold midnight_check. now rewrite R. Qed.


Lemma uptime_after_one_decimal (t : datetime) (night : bool) (p : Z)
    (prev : option datetime) (u : Q) :
  one_decimal u -> one_decimal (uptime_after POLL_SECONDS t night p prev u).
Proof.
  intros G.
  destruct (uptime_after_spec t night p prev u)
    as [[-> _]|(ts & _ & _ & _ & _ & ->)];
    [exact G|apply one_decimal_round].
Qed.

(** Every cycle, with or without rollover, keeps the uptime on one
    decimal; so does every run of the loop from a fresh start. *)
Lemma poll_cycle_one_decimal (e : Env) (w : World) :
  one_decimal (uptime_minutes_today (state w)) ->
  one_decimal (uptime_minutes_today (state (poll_cycle POLL_SECONDS e w))).
Proof.
  intros G. rewrite poll_cycle_state.
  destruct (grade_fields POLL_SECONDS (now e)
              (before_grading POLL_SECONDS e w))
    as (_ & _ & _ & _ & _ & -> & _).
  unfold before_grading, midnight_check.
  assert (Z0 : one_decimal 0) by (exists 0%Z; reflexivity).
  destruct (rollover_due _ _);
    (destruct (fst (read_legacy_block _ _ _)) as [d|]; [|cbn; assumption]);
    cbn [record_sample uptime_minutes_today];
    apply uptime_after_one_decimal.
  - now destruct (update_sample_fields d
           (midnight_reset (today_midnight_local (now_midnight e)) (state w)))
      as (_ & _ & _ & _ & -> & _).
  - now destruct (update_sample_fields d (state w))
      as (_ & _ & _ & _ & -> & _).
Qed.

Lemma poller_loop_one_decimal (es : list Env) (w : World) :
  one_decimal (uptime_minutes_today (state w)) ->
  one_decimal (uptime_minutes_today (state (poller_loop POLL_SECONDS es w))).
Proof.
  revert w. induction es as [|e es IH]; intros w G; [exact G|].
  cbn. apply IH. now apply poll_cycle_one_decimal.
Qed.

End Uptime.

(** The two gaps of the specification: five minutes at 50 W add 5.0
    minutes, forty minutes at a poll interval of 300 s add 10.0. *)
Example uptime_five_minutes :
  uptime_minutes_today
    (state (poll_cycle 300 (env_at (at_time 20000 43500)
                              (Some (regs_with 2314 50))) world_first))
  - uptime_minutes_today (state world_first) == 5.
Proof. reflexivity. Qed.

Example uptime_forty_minutes :
  uptime_minutes_today
    (state (poll_cycle 300 (env_at (at_time 20000 45600)
                              (Some (regs_with 2314 50))) world_first))
  - uptime_minutes_today (state world_first) == 10.
Proof. reflexivity. Qed.




(** ** Midnight rollover *)

Section Midnight.

Lemma poll_cycle_midnight (P : Z) (e : Env) (w : World) :
  _midnight (state (poll_cycle P e w)) =
  _midnight (fst (midnight_check (now_midnight e) (state w) (baseline w))).
Proof.
  rewrite poll_cycle_state.
  destruct (grade_fields P (now e) (before_grading P e w))
    as (_ & _ & _ & _ & _ & _ & _ & _ & ->).
  unfold before_grading. destruct (midnight_check _ _ _) as [s1 bf1].
  destruct (fst (read_legacy_block _ _ _)) as [d|]; [|reflexivity].
  cbn [record_sample _midnight fst].
  now destruct (update_sample_fields d s1)
    as (_ & _ & _ & _ & _ & _ & _ & ->).
Qed.

Lemma poll_cycle_peak (P : Z) (e : Env) (w : World) :
  (peak_power_w (state w) <= peak_power_w (state (poll_cycle P e w)))%Z.
Proof.
  rewrite poll_cycle_state.
  destruct (grade_fields P (now e) (before_grading P e w))
    as (_ & _ & _ & _ & -> & _).
  unfold before_grading, midnight_check.
  destruct (rollover_due _ _);
    (destruct (fst (read_legacy_block _ _ _)) as [d|]; [|cbn; lia]);
    cbn [record_sample peak_power_w].
  - destruct (update_sample_fields d
                (midnight_reset (today_midnight_local (now_midnight e)) (state w)))
      as (_ & _ & _ & -> & _).
    cbn. lia.
  - destruct (update_sample_fields d (state w)) as (_ & _ & _ & -> & _). lia.
Qed.

(** After the check the stored date is not before the midnight checked. *)
Lemma midnight_check_done (n : datetime) (s : State) (bf : baseline_file) :
  rollover_due (fst (midnight_check n s bf)) (today_midnight_local n) = false.
Proof.
  unfold midnight_check.
  destruct (rollover_due s (today_midnight_local n)) eqn:R; cbn [fst].
  - unfold rollover_due. cbn. apply Z.ltb_irrefl.
  - exact R.
Qed.

(** After a cycle, and after any further cycles of the same day, no
    rollover is due on that day. *)
Lemma same_day_no_rollover (P : Z) (e : Env) (w : World) (es : list Env)
    (e' : Env) :
  Forall (fun x => day_of (now_midnight x) = day_of (now_midnight e)) es ->
  day_of (now_midnight e') = day_of (now_midnight e) ->
  rollover_due (state (poller_loop P es (poll_cycle P e w)))
               (today_midnight_local (now_midnight e')) = false.
Proof.
  intros F D.
  assert (last : exists x w0,
             day_of (now_midnight x) = day_of (now_midnight e) /\
             poller_loop P es (poll_cycle P e w) = poll_cycle P x w0).
  { destruct es as [|y es'] using rev_ind.
    - exists e, w. split; reflexivity.
    - exists y, (poller_loop P es' (poll_cycle P e w)). split.
      + apply Forall_app in F. destruct F as [_ Fy]. now inversion Fy.
      + unfold poller_loop. now rewrite fold_left_app. }
  destruct last as (x & w0 & Dx & ->).
  unfold rollover_due. rewrite poll_cycle_midnight.
  unfold today_midnight_local. rewrite D, <- Dx.
  exact (midnight_check_done (now_midnight x) (state w0) (baseline w0)).
Qed.

End Midnight.

(** C1, as stated, fails: the cycle of the rollover, here
    the first one of day 20000 with 10 W, resets the uptime and the
    history but leaves the peak power at the 3000 W of the day before. *)
Lemma rollover_keeps_peak :
  rollover_due (state world_eve) (today_midnight_local (at_time 20000 60))
    = true /\
  peak_power_w
    (state (poll_cycle 300 (env_at (at_time 20000 60)
                              (Some (regs_with 2314 10))) world_eve))
    = 3000%Z.
Proof. split; reflexivity. Qed.

(** C1, amended.  When the stored rollover date is missing or before the
    midnight of the current day, the cycle first sets the uptime of today
    to 0, empties the history buffer, removes the baseline file and stores
    the midnight of today as rollover date; the peak power is not reset
    and never decreases.  Otherwise the check changes nothing.  After a
    cycle no rollover is due in any later cycle of the same calendar day,
    so the reset happens once per day. *)
Theorem midnight_rollover (POLL_SECONDS : Z) (e : Env) (w : World) :
  let midnight := today_midnight_local (now_midnight e) in
  let checked := midnight_check (now_midnight e) (state w) (baseline w) in
  let w' := poll_cycle POLL_SECONDS e w in
  (rollover_due (state w) midnight = true ->
   uptime_minutes_today (fst checked) = 0 /\
   records (fst checked) = [] /\
   snd checked = NoFile /\
   _midnight (fst checked) = Some midnight /\
   peak_power_w (fst checked) = peak_power_w (state w) /\
   (read e = None ->
    uptime_minutes_today (state w') = 0 /\ records (state w') = [])) /\
  (rollover_due (state w) midnight = false ->
   checked = (state w, baseline w)) /\
  (peak_power_w (state w) <= peak_power_w (state w'))%Z /\
  (forall es e',
   Forall (fun x => day_of (now_midnight x) = day_of (now_midnight e)) es ->
   day_of (now_midnight e') = day_of (now_midnight e) ->
   rollover_due (state (poller_loop POLL_SECONDS es w'))
                (today_midnight_local (now_midnight e')) = false).
Proof.
  intros midnight checked w'. split; [|split; [|split]].
  - intros R. unfold checked, midnight_check. fold midnight. rewrite R.
    cbn [fst snd midnight_reset uptime_minutes_today records _midnight
         peak_power_w].
    repeat (split; [reflexivity|]).
    intros N. unfold w'. rewrite poll_cycle_state.
    destruct (grade_fields POLL_SECONDS (now e)
                (before_grading POLL_SECONDS e w))
      as (_ & _ & _ & _ & _ & -> & -> & _).
    unfold before_grading, midnight_check. fold midnight. rewrite R, N.
    split; reflexivity.
  - intros R. unfold checked. now apply no_rollover.
  - apply poll_cycle_peak.
  - intros es e' F D. now apply same_day_no_rollover.
Qed.

Lemma midnight_rollover_witness :
  uptime_minutes_today
    (fst (midnight_check (at_time 20000 60) (state world_eve)
            (baseline world_eve))) = 0 /\
  records
    (fst (midnight_check (at_time 20000 60) (state world_eve)
            (baseline world_eve))) = [] /\
  rollover_due
    (state (poll_cycle 300 (env_at (at_time 20000 60) None) world_eve))
    (today_midnight_local (at_time 20000 86399)) = false.
Proof.
  destruct (midnight_rollover 300 (env_at (at_time 20000 60) None) world_eve)
    as (H & _ & _ & O).
  destruct H as (U & Rs & _); [reflexivity|].
  split; [exact U|]. split; [exact Rs|].
  apply (O [] (env_at (at_time 20000 86399) None));
    [constructor|reflexivity].
Defined.

(** ** Saving the snapshot *)

Section Save.

Lemma run_writes (l : list chunk) (d : state_file) (b : list chunk) :
  run_ops (map OpWrite l) (d, b) = (d, b ++ l).
Proof.
  revert b. induction l as [|c l IH]; intros b; cbn.
  - now rewrite app_nil_r.
  - unfold run_ops in IH. rewrite IH, <- app_assoc. reflexivity.
Qed.

(** The file and the buffer after the open and [n] further operations:
    nothing in the file and a prefix in the buffer, or, past the flush,
    the whole document in the file. *)
Lemma run_save_ops (s : State) (file : state_file) (n : nat) :
  let doc := json_dump s in
  run_ops (firstn (S n) (save_ops s)) (file, []) =
  if (n <=? List.length doc)%nat
  then (Some [], firstn n doc)
  else (Some doc, []).
Proof.
  intros doc. unfold save_ops. fold doc. cbn [firstn run_ops fold_left run_op].
  change (fold_left run_op ?l ?f) with (run_ops l f).
  rewrite firstn_app, firstn_map. unfold run_ops. rewrite fold_left_app.
  change (fold_left run_op ?l ?f) with (run_ops l f).
  rewrite run_writes. cbn [app].
  destruct (Nat.leb_spec n (List.length doc)) as [L|G].
  - rewrite length_map. replace (n - List.length doc)%nat with 0%nat by lia.
    reflexivity.
  - rewrite length_map, (@firstn_all2 _ n doc) by lia.
    destruct (n - List.length doc)%nat as [|[|k]] eqn:E; [lia| |];
      cbn; rewrite ?firstn_nil, ?app_nil_r; reflexivity.
Qed.

Lemma save_ops_nth (s : State) (n : nat) :
  let doc := json_dump s in
  nth_error (save_ops s) (S n) =
  if (n <? List.length doc)%nat then option_map OpWrite (nth_error doc n)
  else if (n =? List.length doc)%nat then Some OpFlush
  else if (n =? S (List.length doc))%nat then Some OpFsync
  else None.
Proof.
  intros doc. unfold save_ops. fold doc. cbn [nth_error].
  destruct (Nat.ltb_spec n (List.length doc)) as [L|G].
  - rewrite nth_error_app1 by (rewrite length_map; lia).
    apply nth_error_map.
  - rewrite nth_error_app2 by (rewrite length_map; lia).
    rewrite length_map.
    destruct (Nat.eqb_spec n (List.length doc)) as [->|N1].
    + now rewrite Nat.sub_diag.
    + destruct (Nat.eqb_spec n (S (List.length doc))) as [->|N2].
      * now replace (S (List.length doc) - List.length doc)%nat with 1%nat by lia.
      * destruct (n - List.length doc)%nat as [|[|k]] eqn:E; try lia.
        cbn. now destruct k.
Qed.

Lemma save_state_done (s : State) (file : state_file) :
  close (run_ops (save_ops s) (file, [])) = Some (json_dump s).
Proof.
  pose proof (run_save_ops s file (S (S (List.length (json_dump s))))) as R.
  cbn zeta in R. rewrite firstn_all2 in R.
  2:{ unfold save_ops. cbn [List.length].
      rewrite length_app, length_map. cbn. lia. }
  rewrite R.
  destruct (Nat.leb_spec (S (S (List.length (json_dump s))))
              (List.length (json_dump s))); [lia|].
  unfold close, run_op. cbn [fst snd content]. now rewrite app_nil_r.
Qed.

(** A save that raises after the open leaves a prefix of the new
    document in the file. *)
Lemma save_state_fault_prefix (s : State) (file : state_file) (n : nat) :
  exists k, save_state (Some (S n)) s file = Some (firstn k (json_dump s)).
Proof.
  unfold save_state. rewrite save_state_done, save_ops_nth.
  pose proof (run_save_ops s file n) as R. cbn zeta in R. rewrite R.
  destruct (Nat.ltb_spec n (List.length (json_dump s))) as [L|G].
  - destruct (nth_error (json_dump s) n) as [c|] eqn:E.
    + cbn [option_map].
      destruct (Nat.leb_spec n (List.length (json_dump s))); [|lia].
      exists n. reflexivity.
    + apply nth_error_None in E. lia.
  - destruct (Nat.eqb_spec n (List.length (json_dump s))) as [->|N1].
    + rewrite Nat.leb_refl. exists 0%nat. reflexivity.
    + destruct (Nat.leb_spec n (List.length (json_dump s))); [lia|].
      exists (List.length (json_dump s)). rewrite firstn_all.
      destruct (Nat.eqb_spec n (S (List.length (json_dump s))));
        [|reflexivity].
      unfold close, run_op. cbn [fst snd content]. now rewrite app_nil_r.
Qed.

(** The fault of the state file does not reach the state or the
    baseline of the cycle. *)
Lemma poll_cycle_fault (P : Z) (f : option nat) (e : Env) (w : World) :
  state (poll_cycle P (with_fault f e) w) = state (poll_cycle P e w) /\
  baseline (poll_cycle P (with_fault f e) w) = baseline (poll_cycle P e w).
Proof.
  unfold poll_cycle. cbn [with_fault now now_midnight now_decode read].
  destruct (midnight_check _ _ _) as [s1 bf1].
  destruct (read_legacy_block _ _ _) as [[d|] bf2]; split; reflexivity.
Qed.

End Save.

(** C9, as stated, fails, with the file of the first cycle
    on disk and the second cycle saving.  A process that dies right after
    the [open] leaves an empty [state.json], neither the old document nor
    the new one; a save whose second write raises leaves the one chunk
    written before it in place of the old document. *)
Lemma save_truncates_in_place :
  crash_during_save 1
    (before_grading 300 (env_at (at_time 20000 43500)
                           (Some (regs_with 2314 50))) world_first)
    (state_json world_first) = Some [] /\
  state_json world_first <> Some [] /\
  json_dump (before_grading 300 (env_at (at_time 20000 43500)
                                   (Some (regs_with 2314 50))) world_first)
    <> [] /\
  state_json
    (poll_cycle 300 (with_fault (Some 2%nat)
                       (env_at (at_time 20000 43500)
                          (Some (regs_with 2314 50)))) world_first)
    = Some [COpen] /\
  state_json world_first <> Some [COpen].
Proof.
  split; [reflexivity|]. split; [vm_compute; discriminate|].
  split; [discriminate|]. split; [reflexivity|]. vm_compute. discriminate.
Qed.

(** C9, amended.  A save copies the snapshot and writes it into
    [state.json] itself: the file is truncated when it is opened, then
    written, flushed and forced to disk, so a save without fault leaves
    the whole new document.  A failure is swallowed: the state and the
    baseline of the cycle are the same with and without it.  The old
    document survives only a failed open; a save that raises later
    leaves a prefix of the new document, and a process that dies during
    the save leaves an empty file until the flush. *)
Theorem save_state_in_place (s : State) (file : state_file) :
  save_state None s file = Some (json_dump s) /\
  save_state (Some 0%nat) s file = file /\
  (forall n, exists k,
     save_state (Some (S n)) s file = Some (firstn k (json_dump s))) /\
  crash_during_save 0 s file = file /\
  (forall n, crash_during_save (S n) s file =
     if (n <=? List.length (json_dump s))%nat
     then Some [] else Some (json_dump s)) /\
  (forall P f e w,
     state (poll_cycle P (with_fault f e) w) = state (poll_cycle P e w) /\
     baseline (poll_cycle P (with_fault f e) w) = baseline (poll_cycle P e w)) /\
  (forall P e w,
     state_json (poll_cycle P e w) =
     save_state (save_fault e) (before_grading P e w) (state_json w)).
Proof.
  split; [apply save_state_done|]. split; [reflexivity|].
  split; [apply save_state_fault_prefix|]. split; [reflexivity|].
  split; [|split].
  - intros n. unfold crash_during_save.
    pose proof (run_save_ops s file n) as R. cbn zeta in R. rewrite R.
    now destruct (n <=? List.length (json_dump s))%nat.
  - intros P f e w. apply poll_cycle_fault.
  - intros P e w. unfold poll_cycle, before_grading.
    destruct (midnight_check _ _ _) as [s1 bf1].
    destruct (read_legacy_block _ _ _) as [[d|] bf2]; reflexivity.
Qed.

Lemma save_state_in_place_witness :
  state_json world_first
  = Some (json_dump (before_grading 300 (env_at (at_time 20000 43200)
                                           (Some (regs_with 2314 50)))
                                    fresh_world)).
Proof.
  destruct (save_state_in_place
              (before_grading 300 (env_at (at_time 20000 43200)
                                     (Some (regs_with 2314 50))) fresh_world)
              (state_json fresh_world)) as (D & _ & _ & _ & _ & _ & C).
  unfold world_first. rewrite C. exact D.
Defined.

(** * Further properties *)

(** ** Words and scale factor *)

Section Words.

Lemma land_low16 (a : Z) : Z.land a 65535 = (a mod 65536)%Z.
Proof. change 65535%Z with (Z.ones 16). now rewrite Z.land_ones by lia. Qed.

(** Two words side by side: the or is a sum. *)
Lemma lor_words (a b : Z) :
  (0 <= b < 65536)%Z -> Z.lor (Z.shiftl a 16) b = (a * 65536 + b)%Z.
Proof.
  intros B. rewrite Z.shiftl_mul_pow2 by lia. change (2 ^ 16)%Z with 65536%Z.
  rewrite <- Z.lxor_lor, <- Z.add_nocarry_lxor; try reflexivity;
    (apply Z.bits_inj'; intros n Hn; rewrite Z.land_spec, Z.bits_0;
     destruct (Z.lt_ge_cases n 16) as [L|G];
     [ replace (a * 65536)%Z with (a * 2 ^ 16)%Z by reflexivity;
       rewrite Z.mul_pow2_bits_low by lia; reflexivity
     | rewrite (Z.bits_above_log2 b n); [apply andb_false_r|lia|];
       destruct (Z.eq_dec b 0) as [->|N]; [cbn; lia|];
       apply Z.lt_le_trans with 16%Z; [|lia];
       apply Z.log2_lt_pow2; lia ]).
Qed.

End Words.

(** X1.  On a 16-bit register the scale factor is the value read as
    two's complement: it lies in [-32768, 32767], it is the register
    modulo 65536, and it is negative exactly from 32768 on. *)
Theorem scale_factor_twos_complement (r : Z) :
  is_reg16 r ->
  (-32768 <= scale_factor r < 32768)%Z /\
  (scale_factor r mod 65536 = r)%Z /\
  ((scale_factor r < 0)%Z <-> (32768 <= r)%Z).
Proof.
  unfold is_reg16, scale_factor. intros R.
  destruct (Z.ltb_spec r 32768) as [L|G].
  - split; [lia|]. split; [apply Z.mod_small; lia|lia].
  - split; [lia|]. split; [|lia].
    replace (r - 65536)%Z with (r + (-1) * 65536)%Z by lia.
    rewrite Z.mod_add by lia. apply Z.mod_small. lia.
Qed.

Lemma scale_factor_twos_complement_witness :
  (scale_factor 65533 mod 65536 = 65533)%Z /\ (scale_factor 65533 < 0)%Z.
Proof.
  destruct (scale_factor_twos_complement 65533) as (_ & M & N).
  - unfold is_reg16. lia.
  - split; [exact M|]. apply N. lia.
Defined.

(** X2.  The decoder puts reg[14] above reg[15]: on 16-bit registers the
    raw counter is reg[14] x 65536 + reg[15], below 2^32, and both words
    can be read back from it. *)
Theorem e_raw_words (low high : Z) :
  is_reg16 low -> is_reg16 high ->
  e_raw_of low high = (low * 65536 + high)%Z /\
  (0 <= e_raw_of low high < 4294967296)%Z /\
  (e_raw_of low high / 65536 = low)%Z /\
  (e_raw_of low high mod 65536 = high)%Z.
Proof.
  unfold is_reg16, e_raw_of. intros L H. rewrite lor_words by exact H.
  split; [reflexivity|]. split; [lia|]. split.
  - rewrite Z.div_add_l by lia. rewrite Z.div_small by lia. lia.
  - rewrite Z.add_comm, Z.mod_add by lia. apply Z.mod_small. lia.
Qed.

Lemma e_raw_words_witness :
  e_raw_of 1 57920 = 123456%Z /\ (e_raw_of 1 57920 / 65536 = 1)%Z.
Proof.
  destruct (e_raw_words 1 57920) as (E & _ & D & _);
    [unfold is_reg16; lia|unfold is_reg16; lia|].
  split; [rewrite E; reflexivity|exact D].
Defined.

(** X3.  [u32_from_words] masks both arguments to 16 bits, whatever
    integers it is given: the result lies in [0, 2^32), its low word is
    [low] modulo 65536 and its high word [high] modulo 65536.  On 16-bit
    registers the decoder's [(low << 16) | high] is the helper with the
    two words exchanged. *)
Theorem u32_from_words_masks (low high : Z) :
  (0 <= u32_from_words low high < 4294967296)%Z /\
  (u32_from_words low high mod 65536 = low mod 65536)%Z /\
  (u32_from_words low high / 65536 = high mod 65536)%Z /\
  (is_reg16 low -> is_reg16 high ->
   e_raw_of low high = u32_from_words high low).
Proof.
  unfold u32_from_words. rewrite !land_low16.
  pose proof (Z.mod_pos_bound low 65536 ltac:(lia)) as L.
  pose proof (Z.mod_pos_bound high 65536 ltac:(lia)) as H.
  rewrite lor_words by exact L.
  split; [lia|]. split; [|split].
  - rewrite Z.add_comm, Z.mod_add by lia. apply Z.mod_small. exact L.
  - rewrite Z.div_add_l by lia. rewrite Z.div_small by lia. lia.
  - unfold is_reg16, e_raw_of. intros Rl Rh.
    rewrite !Z.mod_small by lia. reflexivity.
Qed.

Lemma u32_from_words_masks_witness :
  e_raw_of 1 57920 = u32_from_words 57920 1.
Proof.
  apply (u32_from_words_masks 1 57920); unfold is_reg16; lia.
Defined.

(** ** Cycles without a sample, and the grade of every cycle *)

Section Cycles.

Variable POLL_SECONDS : Z.

Lemma undecodable_dec (r : option (list Z)) :
  undecodable r \/ exists regs, r = Some regs /\ (27 <= List.length regs)%nat.
Proof.
  destruct r as [regs|]; [|left; now left].
  destruct (Nat.lt_ge_cases (List.length regs) 27) as [L|G].
  - left. right. now exists regs.
  - right. now exists regs.
Qed.

Lemma undecodable_block (r : option (list Z)) (t : datetime)
    (bf : baseline_file) :
  undecodable r -> read_legacy_block r t bf = (None, bf).
Proof.
  intros [->|(regs & -> & L)]; [reflexivity|].
  now apply read_legacy_block_short.
Qed.



(** The state a cycle without sample stores. *)
Lemma poll_cycle_offline (e : Env) (w : World) :
  undecodable (read e) ->
  state (poll_cycle POLL_SECONDS e w) =
  grade POLL_SECONDS (now e)
    (mark_offline (fst (midnight_check (now_midnight e) (state w) (baseline w))))
  /\ baseline (poll_cycle POLL_SECONDS e w) =
     snd (midnight_check (now_midnight e) (state w) (baseline w)).
Proof.
  intros U. unfold poll_cycle.
  destruct (midnight_check _ _ _) as [s1 bf1].
  rewrite (undecodable_block _ _ _ U). split; reflexivity.
Qed.



End Cycles.



(** X5.  A cycle without sample marks the inverter offline: not
    connected, status "Offline"/"muted", voltage, frequency and
    temperature null, grade "OFFLINE".  It keeps the peak power, both
    energy figures, the status code, the time of the last sample and of
    the last upload, and, from the state the midnight check left, the
    uptime and the history; the baseline file is not written. *)
Theorem offline_cycle (POLL_SECONDS : Z) (e : Env) (w : World) :
  undecodable (read e) ->
  let s' := state (poll_cycle POLL_SECONDS e w) in
  let checked := midnight_check (now_midnight e) (state w) (baseline w) in
  (inverter_connected s' = false /\
   (status_text s', status_class s') = ("Offline", "muted") /\
   ac_voltage s' = None /\ grid_freq_hz s' = None /\
   inverter_temp_c s' = None /\
   (dq_text s', dq_class s') = ("OFFLINE", "dq_off")) /\
  (peak_power_w s' = peak_power_w (state w) /\
   energy_today_kwh s' = energy_today_kwh (state w) /\
   energy_total_kwh s' = energy_total_kwh (state w) /\
   status_code s' = status_code (state w) /\
   _last_sample_ts s' = _last_sample_ts (state w) /\
   last_upload s' = last_upload (state w)) /\
  (uptime_minutes_today s' = uptime_minutes_today (fst checked) /\
   records s' = records (fst checked) /\
   baseline (poll_cycle POLL_SECONDS e w) = snd checked).
Proof.
  intros U s' checked. unfold s', checked.
  destruct (poll_cycle_offline POLL_SECONDS e w U) as [-> ->].
  unfold grade, midnight_check.
  destruct (rollover_due _ _); cbn; repeat split.
Qed.

Lemma offline_cycle_witness :
  dq_text (state (poll_cycle 300 (env_at (at_time 20000 50000) None)
                             world_first)) = "OFFLINE" /\
  records (state (poll_cycle 300 (env_at (at_time 20000 50000) None)
                             world_first)) = records (state world_first).
Proof.
  destruct (offline_cycle 300 (env_at (at_time 20000 50000) None) world_first)
    as ((_ & _ & _ & _ & _ & D) & _ & (_ & R & _)); [now left|].
  split; [now inversion D|].
  rewrite R. reflexivity.
Defined.





(** ** Rounding errors *)

Section RoundingError.

(** The nearest integer is within one half. *)
Lemma round_half_even_error (x : Q) :
  inject_Z (Py.round_half_even x) - x <= 1 # 2 /\
  x - inject_Z (Py.round_half_even x) <= 1 # 2.
Proof.
  pose proof (Qfloor_le x) as F. pose proof (Qlt_floor x) as C.
  rewrite inject_Z_plus in C. change (inject_Z 1) with 1 in C.
  unfold Py.round_half_even.
  destruct (Qcompare_spec (x - inject_Z (Qfloor x)) (1 # 2)) as [E|L|G].
  - destruct (Z.even (Qfloor x)).
    + split; lra.
    + rewrite inject_Z_plus. change (inject_Z 1) with 1. split; lra.
  - split; lra.
  - rewrite inject_Z_plus. change (inject_Z 1) with 1. split; lra.
Qed.

(** [round(x, nd)] is within half a unit of the last decimal. *)
Lemma round_error (x : Q) (nd : nat) :
  Py.round x nd - x <= 1 # (2 * 10 ^ Pos.of_nat nd) /\
  x - Py.round x nd <= 1 # (2 * 10 ^ Pos.of_nat nd).
Proof.
  set (p := (10 ^ Pos.of_nat nd)%positive).
  set (s := inject_Z (Zpos p)).
  assert (S0 : 0 < s) by (unfold s, Qlt; cbn; lia).
  destruct (round_half_even_error (x * s)) as [U D].
  assert (E : Py.round x nd == inject_Z (Py.round_half_even (x * s)) / s).
  { unfold Py.round. fold p. fold s. apply Qmake_Qdiv. }
  assert (H : (1 # (2 * p)) == (1 # 2) / s).
  { unfold s. rewrite (Qmake_Qdiv 1 (2 * p)).
    rewrite Pos2Z.inj_mul, inject_Z_mult.
    change (inject_Z 1) with 1. change (inject_Z 2) with 2.
    field. fold s. intros Z0. lra. }
  rewrite E, H. set (r := inject_Z (Py.round_half_even (x * s))) in *.
  assert (N : ~ s == 0) by (intros Z0; lra).
  split.
  - setoid_replace (r / s - x) with ((r - x * s) / s) by (field; exact N).
    apply Qmult_le_compat_r; [exact U|]. apply Qlt_le_weak, Qinv_lt_0_compat, S0.
  - setoid_replace (x - r / s) with ((x * s - r) / s) by (field; exact N).
    apply Qmult_le_compat_r; [exact D|]. apply Qlt_le_weak, Qinv_lt_0_compat, S0.
Qed.

(** [int(x)] is the floor of a value that is not negative. *)
Lemma py_int_floor (x : Q) :
  0 <= x -> inject_Z (Py.int x) <= x /\ x < inject_Z (Py.int x) + 1 /\
            (0 <= Py.int x)%Z.
Proof.
  intros P.
  assert (N : (0 <= Qnum x)%Z).
  { unfold Qle in P. cbn in P. lia. }
  assert (E : Py.int x = Qfloor x).
  { unfold Py.int. destruct x as [n d]. cbn [Qnum Qden Qfloor] in *.
    apply Z.quot_div_nonneg; lia. }
  rewrite E. split; [apply Qfloor_le|]. split.
  - pose proof (Qlt_floor x) as C. rewrite inject_Z_plus in C. exact C.
  - change 0%Z with (Qfloor 0). now apply Qfloor_resp_le.
Qed.

End RoundingError.

(** ** Peak power and energy over cycles *)

Section Totals.

Variable POLL_SECONDS : Z.








End Totals.





(** ** The history and what the page shows *)

Section HistoryOrder.

Variable POLL_SECONDS : Z.

Lemma to_seconds_le (t : datetime) : (to_seconds t <= t)%Z.
Proof.
  unfold to_seconds, us_per_second.
  pose proof (Z.mul_div_le t 1000000 ltac:(lia)). lia.
Qed.

Lemma to_seconds_mono (a b : datetime) :
  (a <= b)%Z -> (to_seconds a <= to_seconds b)%Z.
Proof.
  intros L. unfold to_seconds, us_per_second.
  apply Z.mul_le_mono_nonneg_r; [lia|]. apply Z.div_le_mono; lia.
Qed.

Lemma chronological_snoc (l : list Rec) (r : Rec) :
  chronological l ->
  Forall (fun x => (timestamp x <= timestamp r)%Z) l ->
  chronological (l ++ [r]).
Proof.
  unfold chronological. induction l as [|a l IH]; intros S F; cbn.
  - constructor; constructor.
  - inversion S as [|? ? S' Fa]. inversion F as [|? ? Fr F']. subst.
    constructor; [now apply IH|].
    rewrite map_app, Forall_app. split; [exact Fa|].
    constructor; [exact Fr|constructor].
Qed.

Lemma chronological_tl (l : list Rec) : chronological l -> chronological (tl l).
Proof.
  unfold chronological. destruct l as [|a l]; intros S; [exact S|].
  now inversion S.
Qed.

Lemma Forall_tl {A} (P : A -> Prop) (l : list A) : Forall P l -> Forall P (tl l).
Proof. destruct l; intros F; [exact F|now inversion F]. Qed.

Lemma append_record_chronological (r : Rec) (l : list Rec) :
  chronological l ->
  Forall (fun x => (timestamp x <= timestamp r)%Z) l ->
  chronological (append_record r l) /\
  Forall (fun x => (timestamp x <= timestamp r)%Z) (append_record r l).
Proof.
  intros S F. unfold append_record.
  destruct (288 <=? List.length l)%nat.
  - split.
    + apply chronological_snoc; [now apply chronological_tl|now apply Forall_tl].
    + rewrite Forall_app. split; [now apply Forall_tl|].
      constructor; [lia|constructor].
  - split.
    + now apply chronological_snoc.
    + rewrite Forall_app. split; [exact F|]. constructor; [lia|constructor].
Qed.

(** The history a cycle leaves: that of the checked state, with the
    record of the sample appended if there is one. *)
Lemma poll_cycle_records (e : Env) (w : World) :
  let s1 := fst (midnight_check (now_midnight e) (state w) (baseline w)) in
  (undecodable (read e) ->
   records (state (poll_cycle POLL_SECONDS e w)) = records s1) /\
  (forall regs, read e = Some regs -> (27 <= List.length regs)%nat ->
   records (state (poll_cycle POLL_SECONDS e w)) =
   append_record
     {| timestamp := to_seconds (now e);
        power_w := nth 4 regs 0%Z;
        energy_wh := Py.int (s_energy_today_wh (cycle_sample e w regs)) |}
     (records s1)).
Proof.
  intros s1. split.
  - intros U. destruct (poll_cycle_offline POLL_SECONDS e w U) as [-> _].
    unfold grade. now destruct (data_quality _ _ _).
  - intros regs R L. rewrite poll_cycle_state.
    destruct (grade_fields POLL_SECONDS (now e)
                (before_grading POLL_SECONDS e w))
      as (_ & _ & _ & _ & _ & _ & -> & _).
    rewrite (before_grading_sample _ _ _ _ R L), record_sample_records.
    fold s1.
    now destruct (update_sample_fields (cycle_sample e w regs) s1)
      as (_ & _ & _ & _ & _ & -> & _).
Qed.

Lemma midnight_check_records_cases (n : datetime) (s : State)
    (bf : baseline_file) :
  records (fst (midnight_check n s bf)) =
  if rollover_due s (today_midnight_local n) then [] else records s.
Proof. unfold midnight_check. now destruct (rollover_due _ _). Qed.

Lemma poll_cycle_chronological (e : Env) (w : World) :
  chronological (records (state w)) ->
  Forall (fun x => (timestamp x <= to_seconds (now e))%Z) (records (state w)) ->
  chronological (records (state (poll_cycle POLL_SECONDS e w))) /\
  Forall (fun x => (timestamp x <= to_seconds (now e))%Z)
         (records (state (poll_cycle POLL_SECONDS e w))).
Proof.
  intros S F.
  set (s1 := fst (midnight_check (now_midnight e) (state w) (baseline w))).
  assert (S1 : chronological (records s1) /\
               Forall (fun x => (timestamp x <= to_seconds (now e))%Z)
                      (records s1)).
  { unfold s1. rewrite midnight_check_records_cases.
    destruct (rollover_due _ _); [|now split].
    split; [constructor|constructor]. }
  destruct (poll_cycle_records e w) as [O A]. fold s1 in O, A.
  destruct (undecodable_dec (read e)) as [U|(regs & R & L)].
  - now rewrite (O U).
  - rewrite (A regs R L).
    now apply (append_record_chronological
                 {| timestamp := to_seconds (now e);
                    power_w := nth 4 regs 0%Z;
                    energy_wh := Py.int (s_energy_today_wh
                                           (cycle_sample e w regs)) |}).
Qed.


End HistoryOrder.

(** X10.  When the clock read at the top of the loop does not go back
    from cycle to cycle, the history stays in the order of its
    timestamps over any run: from a history in order whose records are
    not later than the start, every run leaves a history in order. *)
Theorem records_chronological (POLL_SECONDS : Z) (es : list Env) (w : World)
    (t0 : datetime) :
  chronological (records (state w)) ->
  Forall (fun x => (timestamp x <= to_seconds t0)%Z) (records (state w)) ->
  StronglySorted Z.le (t0 :: map now es) ->
  chronological (records (state (poller_loop POLL_SECONDS es w))).
Proof.
  revert w t0. induction es as [|e es IH]; intros w t0 S F T; [exact S|].
  cbn [poller_loop fold_left]. cbn [map] in T.
  inversion T as [|? ? T' F0]. subst. inversion F0 as [|? ? L0 _]. subst.
  assert (F' : Forall (fun x => (timestamp x <= to_seconds (now e))%Z)
                      (records (state w))).
  { eapply Forall_impl; [|exact F]. cbn. intros r Lr.
    pose proof (to_seconds_mono _ _ L0). lia. }
  destruct (poll_cycle_chronological POLL_SECONDS e w S F') as [S1 F1].
  exact (IH _ (now e) S1 F1 T').
Qed.

Lemma records_chronological_witness :
  chronological
    (records (state (poller_loop 300
       [env_at (at_time 20000 43200) (Some (regs_with 2314 50));
        env_at (at_time 20000 43500) None;
        env_at (at_time 20000 43800) (Some (regs_with 2314 60))]
       fresh_world))).
Proof.
  apply (records_chronological 300 _ fresh_world (at_time 20000 0)).
  - constructor.
  - constructor.
  - repeat constructor; vm_compute; discriminate.
Defined.



(** X12.  The page splits an uptime that is not negative into hours and
    minutes of its whole minutes: the minutes lie in [0, 59], the hours
    are not negative, and 60 x hours + minutes is the uptime rounded
    down. *)
Theorem uptime_hm_decomposes (u : Q) :
  0 <= u ->
  let h := fst (uptime_hm u) in
  let m := snd (uptime_hm u) in
  (0 <= h)%Z /\ (0 <= m < 60)%Z /\
  inject_Z (60 * h + m) <= u < inject_Z (60 * h + m) + 1.
Proof.
  intros P h m. unfold h, m, uptime_hm. cbn [fst snd].
  destruct (py_int_floor u P) as (Lo & Hi & N).
  pose proof (Z.mod_pos_bound (Py.int u) 60 ltac:(lia)) as M.
  pose proof (Z.div_pos (Py.int u) 60 N ltac:(lia)) as D.
  rewrite <- (Z.div_mod (Py.int u) 60) by lia.
  split; [exact D|]. split; [exact M|]. split; [exact Lo|exact Hi].
Qed.

Lemma uptime_hm_decomposes_witness :
  (0 <= snd (uptime_hm (1255 # 10)) < 60)%Z /\
  inject_Z (60 * fst (uptime_hm (1255 # 10)) + snd (uptime_hm (1255 # 10)))
    <= 1255 # 10.
Proof.
  destruct (uptime_hm_decomposes (1255 # 10)) as (_ & M & L & _);
    [unfold Qle; cbn; lia|].
  split; [exact M|exact L].
Defined.

(** ** Uptime, rollover day and energy figures *)

Section Figures.

Variable POLL_SECONDS : Z.

(** The uptime any cycle leaves, from the state the check left. *)
Lemma poll_cycle_uptime_checked (e : Env) (w : World) :
  let s1 := fst (midnight_check (now_midnight e) (state w) (baseline w)) in
  uptime_minutes_today (state (poll_cycle POLL_SECONDS e w)) =
  match fst (read_legacy_block (read e) (now_decode e)
               (snd (midnight_check (now_midnight e) (state w) (baseline w)))) with
  | Some d =>
      uptime_after POLL_SECONDS (now e) (is_night_of d) (s_power_w d)
                   (_last_sample_ts s1) (uptime_minutes_today s1)
  | None => uptime_minutes_today s1
  end.
Proof.
  intros s1. rewrite poll_cycle_state.
  destruct (grade_fields POLL_SECONDS (now e)
              (before_grading POLL_SECONDS e w))
    as (_ & _ & _ & _ & _ & -> & _).
  unfold before_grading, s1.
  destruct (midnight_check _ _ _) as [c bf1]. cbn [fst snd].
  destruct (fst (read_legacy_block _ _ _)) as [d|]; [|reflexivity].
  cbn [record_sample uptime_minutes_today].
  now destruct (update_sample_fields d c) as (_ & _ & _ & _ & -> & _).
Qed.

Lemma uptime_after_bound (t : datetime) (night : bool) (p : Z)
    (prev : option datetime) (u : Q) :
  (0 <= POLL_SECONDS)%Z ->
  uptime_after POLL_SECONDS t night p prev u
  <= u + inject_Z (POLL_SECONDS * 2) / 60 + (1 # 20).
Proof.
  intros P.
  assert (C : 0 <= inject_Z (POLL_SECONDS * 2) / 60).
  { apply Qmult_le_0_compat; [|unfold Qle; cbn; lia].
    change 0 with (inject_Z 0). rewrite <- Zle_Qle. lia. }
  set (cap := inject_Z (POLL_SECONDS * 2) / 60) in *.
  destruct (uptime_after_spec POLL_SECONDS t night p prev u)
    as [[-> _]|(ts & _ & _ & _ & L & ->)]; [lra|].
  destruct (round_error (u + elapsed_min POLL_SECONDS t ts) 1) as [R _].
  change (1 # 2 * 10 ^ Pos.of_nat 1) with (1 # 20) in R.
  assert (E : elapsed_min POLL_SECONDS t ts <= cap).
  { unfold elapsed_min. fold cap.
    destruct (py_min_cases (total_seconds t ts / 60) cap)
      as [[_ ->]|[M ->]]; lra. }
  lra.
Qed.


End Figures.

(** X13.  With a poll interval that is not negative, a cycle adds at
    most 2 x POLL_SECONDS / 60 minutes, and 0.05 for the rounding, to the
    uptime the midnight check left (0 after a rollover, the stored uptime
    otherwise), however long ago the previous sample was taken. *)
Theorem uptime_increment_bounded (POLL_SECONDS : Z) (e : Env) (w : World) :
  (0 <= POLL_SECONDS)%Z ->
  let due := rollover_due (state w) (today_midnight_local (now_midnight e)) in
  let u1 := if due then 0 else uptime_minutes_today (state w) in
  uptime_minutes_today (state (poll_cycle POLL_SECONDS e w))
  <= u1 + inject_Z (POLL_SECONDS * 2) / 60 + (1 # 20).
Proof.
  intros P due u1.
  assert (C : 0 <= inject_Z (POLL_SECONDS * 2) / 60).
  { apply Qmult_le_0_compat; [|unfold Qle; cbn; lia].
    change 0 with (inject_Z 0). rewrite <- Zle_Qle. lia. }
  set (cap := inject_Z (POLL_SECONDS * 2) / 60) in *.
  rewrite poll_cycle_uptime_checked.
  assert (U : uptime_minutes_today
                (fst (midnight_check (now_midnight e) (state w) (baseline w)))
              = u1).
  { unfold midnight_check, u1, due. now destruct (rollover_due _ _). }
  rewrite U.
  destruct (fst (read_legacy_block _ _ _)) as [d|]; [|lra].
  now apply uptime_after_bound.
Qed.

Lemma uptime_increment_bounded_witness :
  uptime_minutes_today
    (state (poll_cycle 300 (env_at (at_time 20000 80000)
                              (Some (regs_with 2314 50))) world_first))
  <= 0 + inject_Z (300 * 2) / 60 + (1 # 20).
Proof.
  apply (uptime_increment_bounded 300
           (env_at (at_time 20000 80000) (Some (regs_with 2314 50)))
           world_first).
  lia.
Defined.

(** X14.  [today_midnight_local] gives the start of the day of its
    clock reading: not later than the reading, less than a day before it,
    and of the same day.  Against a stored rollover date that is such a
    midnight, of a reading [n0], a rollover is due exactly when the day of
    the new reading is later than the day of [n0]; without a stored date
    it is always due. *)
Theorem rollover_follows_day (n0 n : datetime) (s : State) :
  (today_midnight_local n <= n < today_midnight_local n + us_per_day)%Z /\
  day_of (today_midnight_local n) = day_of n /\
  (_midnight s = Some (today_midnight_local n0) ->
   (rollover_due s (today_midnight_local n) = true <->
    (day_of n0 < day_of n)%Z)) /\
  (_midnight s = None -> rollover_due s (today_midnight_local n) = true).
Proof.
  unfold today_midnight_local, day_of, us_per_day.
  pose proof (Z.div_mod n 86400000000 ltac:(lia)) as E.
  pose proof (Z.mod_pos_bound n 86400000000 ltac:(lia)) as B.
  split; [lia|]. split; [apply Z.div_mul; lia|]. split.
  - intros M. unfold rollover_due. rewrite M. rewrite Z.ltb_lt. split; lia.
  - intros M. unfold rollover_due. now rewrite M.
Qed.

Lemma rollover_follows_day_witness :
  rollover_due (state world_eve) (today_midnight_local (at_time 20000 1)) = true.
Proof.
  destruct (rollover_follows_day (at_time 19999 43200) (at_time 20000 1)
              (state world_eve)) as (_ & _ & H & _).
  apply H; [reflexivity|].
  vm_compute. reflexivity.
Defined.



(** ** Loading the state file *)

Section Loading.


Lemma parse_items_open (l : list (string * json)) :
  parse_items (map item_chunk l) = None.
Proof.
  induction l as [|[k v] l IH]; [reflexivity|].
  cbn [map item_chunk fst snd parse_items]. now rewrite IH.
Qed.

Lemma json_dump_shape (s : State) :
  json_dump s = COpen :: map item_chunk (state_items s) ++ [CClose].
Proof. reflexivity. Qed.

Lemma json_dump_length (s : State) : List.length (json_dump s) = 22%nat.
Proof. reflexivity. Qed.



(** A document cut short does not load. *)
Lemma json_load_prefix (s : State) (k : nat) :
  (k < List.length (json_dump s))%nat ->
  json_load (firstn k (json_dump s)) = None.
Proof.
  intros L. rewrite json_dump_length in L.
  assert (I : List.length (state_items s) = 20%nat) by reflexivity.
  rewrite json_dump_shape.
  destruct k as [|k]; [reflexivity|]. cbn [firstn json_load].
  rewrite firstn_app, length_map.
  replace (k - List.length (state_items s))%nat with 0%nat by lia.
  cbn [firstn]. rewrite app_nil_r, firstn_map.
  now rewrite parse_items_open.
Qed.

(** The file a save leaves when operation [S n] raises, up to the flush. *)
Lemma save_state_fault_exact (s : State) (file : state_file) (n : nat) :
  (n <= List.length (json_dump s))%nat ->
  save_state (Some (S n)) s file =
  Some (firstn (if (n <? List.length (json_dump s))%nat then n else 0)
               (json_dump s)).
Proof.
  intros L. unfold save_state. rewrite save_state_done, save_ops_nth.
  pose proof (run_save_ops s file n) as R. cbn zeta in R. rewrite R.
  destruct (Nat.leb_spec n (List.length (json_dump s))) as [_|G]; [|lia].
  destruct (Nat.ltb_spec n (List.length (json_dump s))) as [L'|G].
  - destruct (nth_error (json_dump s) n) as [c|] eqn:E.
    + reflexivity.
    + apply nth_error_None in E. lia.
  - assert (n = List.length (json_dump s)) as -> by lia.
    now rewrite Nat.eqb_refl.
Qed.

Lemma load_state_unloadable (cs : list chunk) (st : dict) :
  json_load cs = None -> load_state (Some cs) st = st.
Proof. intros N. unfold load_state. now rewrite N. Qed.


End Loading.

Section Restart.

Variable POLL_SECONDS : Z.





End Restart.



(** X17.  A file that does not load leaves the state as it is, without
    the "STARTING" grade: so does no file at all, and so does the file
    left by a save in which a write or the flush raised, or by a process
    that died during the save before the flush had returned.  What the
    previous run had accumulated is then not restored. *)
Theorem load_state_after_failed_save (s : State) (file : state_file)
    (st : dict) (n : nat) :
  (n <= List.length (json_dump s))%nat ->
  load_state (save_state (Some (S n)) s file) st = st /\
  load_state (crash_during_save (S n) s file) st = st /\
  load_state None st = st.
Proof.
  intros L. split; [|split; [|reflexivity]].
  - rewrite (save_state_fault_exact s file n L).
    apply load_state_unloadable. apply json_load_prefix.
    destruct (Nat.ltb_spec n (List.length (json_dump s))); [lia|].
    rewrite json_dump_length. lia.
  - unfold crash_during_save.
    pose proof (run_save_ops s file n) as R. cbn zeta in R. rewrite R.
    destruct (Nat.leb_spec n (List.length (json_dump s))); [|lia].
    reflexivity.
Qed.

Lemma load_state_after_failed_save_witness :
  load_state (save_state (Some 5%nat) (state world_eve) None)
             (state_items (initial_state false false))
  = state_items (initial_state false false).
Proof.
  apply (load_state_after_failed_save (state world_eve) None
           (state_items (initial_state false false)) 4).
  rewrite json_dump_length. lia.
Defined.



(** ** The upload *)

Section Upload.

Lemma upper_app (a b : string) : upper (a ++ b) = (upper a ++ upper b)%string.
Proof. induction a as [|c a IH]; [reflexivity|]. cbn. now rewrite IH. Qed.

Lemma startswith_app (p rest : string) : startswith (p ++ rest) p = true.
Proof.
  induction p as [|c p IH]; [reflexivity|].
  cbn. now rewrite Ascii.eqb_refl, IH.
Qed.


Lemma minute_of_range (t : datetime) : (0 <= minute_of t < 1440)%Z.
Proof.
  unfold minute_of, us_per_day, us_per_second.
  pose proof (Z.mod_pos_bound t 86400000000 ltac:(lia)) as B.
  split.
  - apply Z.div_pos; lia.
  - apply Z.div_lt_upper_bound; lia.
Qed.

(** The request of a live upload with both credentials. *)
Lemma pvoutput_request (cfg : Config) (t : datetime) (http : http_result)
    (p e : Q) (v tc : option Q) (rq : Request) :
  snd (pvoutput_addstatus cfg t http p e v tc) = Some rq ->
  DRY_RUN cfg = false /\ PV_API_KEY cfg <> "" /\ PV_SYSTEM_ID cfg <> "" /\
  rq = {| apikey := PV_API_KEY cfg; systemid := PV_SYSTEM_ID cfg;
          form := {| form_d := day_of t; form_t := minute_of t;
                     form_v1 := Py.round_half_even e;
                     form_v2 := Py.round_half_even p;
                     form_v5 := option_map (fun x => Py.round x 1) tc;
                     form_v6 := option_map (fun x => Py.round x 1) v |} |}.
Proof.
  unfold pvoutput_addstatus. destruct (DRY_RUN cfg); [discriminate|].
  destruct (String.eqb_spec (PV_API_KEY cfg) "") as [|K]; [discriminate|].
  destruct (String.eqb_spec (PV_SYSTEM_ID cfg) "") as [|S]; [discriminate|].
  cbn [orb]. destruct http; cbn [snd]; intros [= <-]; now repeat split.
Qed.

End Upload.

(** X19.  The upload reports success exactly in dry-run mode, or when
    both credentials are set and the service answers 200 with a body that
    does not begin with "ERROR" in any mix of upper and lower case.  It
    makes no request in dry-run mode or when a credential is empty, and
    an exception of the request is a failure. *)
Theorem pvoutput_addstatus_result (cfg : Config) (t : datetime)
    (http : http_result) (p e : Q) (v tc : option Q) :
  let r := pvoutput_addstatus cfg t http p e v tc in
  (fst r = true <->
   DRY_RUN cfg = true \/
   (PV_API_KEY cfg <> "" /\ PV_SYSTEM_ID cfg <> "" /\
    exists text, http = Response 200 text /\
                 startswith (upper text) "ERROR" = false)) /\
  (snd r = None <->
   DRY_RUN cfg = true \/ PV_API_KEY cfg = "" \/ PV_SYSTEM_ID cfg = "") /\
  (DRY_RUN cfg = false ->
   (http = PostRaises -> fst r = false) /\
   (forall code word rest,
      http = Response code (word ++ rest) -> upper word = "ERROR" ->
      fst r = false)).
Proof.
  intros r. unfold r, pvoutput_addstatus.
  destruct (DRY_RUN cfg) eqn:D.
  { cbn. split; [tauto|]. split; [tauto|]. discriminate. }
  destruct (String.eqb_spec (PV_API_KEY cfg) "") as [K|K].
  { cbn. split; [|split].
    - split; [discriminate|]. intros [C|(C & _)]; [discriminate C|contradiction].
    - tauto.
    - intros _. split; reflexivity. }
  destruct (String.eqb_spec (PV_SYSTEM_ID cfg) "") as [S|S].
  { cbn. split; [|split].
    - split; [discriminate|].
      intros [C|(_ & C & _)]; [discriminate C|contradiction].
    - tauto.
    - intros _. split; reflexivity. }
  cbn [orb]. split; [|split].
  - destruct http as [code text|]; cbn [fst].
    + rewrite andb_true_iff, Z.eqb_eq, negb_true_iff. split.
      * intros [-> N]. right. repeat split; try assumption. now exists text.
      * intros [C|(_ & _ & text' & [= -> ->] & N)]; [discriminate C|now split].
    + split; [discriminate|].
      intros [C|(_ & _ & text' & C & _)]; discriminate C.
  - destruct http; cbn [snd]; split; try discriminate;
      intros [C|[C|C]]; [discriminate C|contradiction|contradiction
                        |discriminate C|contradiction|contradiction].
  - intros _. split.
    + intros ->. reflexivity.
    + intros code word rest -> U. cbn [fst].
      rewrite upper_app, U, startswith_app. apply andb_false_r.
Qed.

Lemma pvoutput_addstatus_result_witness :
  fst (pvoutput_addstatus
         {| DRY_RUN := false; PV_API_KEY := "key"; PV_SYSTEM_ID := "12345";
            MODBUS_UNIT_ID := 2 |}
         (at_time 20000 43200) (Response 200 "Error: Invalid System ID")
         50 543 (Some (2314 # 10)) (Some (415 # 10))) = false.
Proof.
  destruct (pvoutput_addstatus_result
              {| DRY_RUN := false; PV_API_KEY := "key"; PV_SYSTEM_ID := "12345";
                 MODBUS_UNIT_ID := 2 |}
              (at_time 20000 43200) (Response 200 "Error: Invalid System ID")
              50 543 (Some (2314 # 10)) (Some (415 # 10))) as (_ & _ & H).
  destruct (H eq_refl) as [_ E].
  apply (E 200%Z "Error" ": Invalid System ID"); reflexivity.
Defined.

(** X20.  The form of a request carries, as [v1] and [v2], the integers
    nearest to the energy and the power given (the power itself when it
    is an integer), the minute of the day in [0, 1439], and [v5] and [v6]
    exactly when a temperature and a voltage are given, each within 0.05
    of the value given. *)
Theorem pvoutput_form (cfg : Config) (t : datetime) (http : http_result)
    (p e : Q) (v tc : option Q) (rq : Request) :
  snd (pvoutput_addstatus cfg t http p e v tc) = Some rq ->
  let f := form rq in
  (inject_Z (form_v1 f) - e <= 1 # 2 /\ e - inject_Z (form_v1 f) <= 1 # 2) /\
  (inject_Z (form_v2 f) - p <= 1 # 2 /\ p - inject_Z (form_v2 f) <= 1 # 2) /\
  (forall z, p == inject_Z z -> form_v2 f = z) /\
  (0 <= form_t f < 1440)%Z /\
  (form_v5 f = None <-> tc = None) /\ (form_v6 f = None <-> v = None) /\
  (forall x, tc = Some x ->
     exists y, form_v5 f = Some y /\ y - x <= 1 # 20 /\ x - y <= 1 # 20) /\
  (forall x, v = Some x ->
     exists y, form_v6 f = Some y /\ y - x <= 1 # 20 /\ x - y <= 1 # 20).
Proof.
  intros R f. apply pvoutput_request in R. destruct R as (_ & _ & _ & ->).
  unfold f. cbn [form form_v1 form_v2 form_v5 form_v6 form_t].
  split; [apply round_half_even_error|].
  split; [apply round_half_even_error|].
  split.
  { intros z E. rewrite (round_half_even_comp _ _ E). apply round_half_even_Z. }
  split; [apply minute_of_range|].
  split; [destruct tc; cbn; split; congruence|].
  split; [destruct v; cbn; split; congruence|].
  split.
  - intros x ->. cbn. eexists. split; [reflexivity|].
    destruct (round_error x 1) as [U D].
    now change (1 # 2 * 10 ^ Pos.of_nat 1) with (1 # 20) in U, D.
  - intros x ->. cbn. eexists. split; [reflexivity|].
    destruct (round_error x 1) as [U D].
    now change (1 # 2 * 10 ^ Pos.of_nat 1) with (1 # 20) in U, D.
Qed.

Lemma pvoutput_form_witness :
  exists rq,
    snd (pvoutput_addstatus
           {| DRY_RUN := false; PV_API_KEY := "key"; PV_SYSTEM_ID := "12345";
              MODBUS_UNIT_ID := 2 |}
           (at_time 20000 43200) PostRaises
           50 (5435 # 10) (Some (2314 # 10)) None) = Some rq /\
    form_v2 (form rq) = 50%Z /\ form_v5 (form rq) = None.
Proof.
  eexists. split; [reflexivity|].
  match goal with
  | |- form_v2 (form ?r) = _ /\ _ =>
      destruct (pvoutput_form
                  {| DRY_RUN := false; PV_API_KEY := "key";
                     PV_SYSTEM_ID := "12345"; MODBUS_UNIT_ID := 2 |}
                  (at_time 20000 43200) PostRaises
                  50 (5435 # 10) (Some (2314 # 10)) None r eq_refl)
        as (_ & _ & P & _ & T & _)
  end.
  split; [apply P; reflexivity|now apply T].
Defined.

(** ** The device and the whole iteration *)

Section Iteration.

Variable cfg : Config.
Variable POLL_SECONDS : Z.



(** The iteration when the read returns. *)
Lemma poll_iteration_returned (o : Outside) (w : World) (r : option (list Z)) :
  fst (read_regs (MODBUS_UNIT_ID cfg) 80 40 (modbus o)) = Returned r ->
  let up := cycle_upload cfg o
              (fst (read_legacy_block r (clock_decode o)
                      (snd (midnight_check (clock_midnight o) (state w)
                              (baseline w))))) in
  fst (fst (poll_iteration cfg POLL_SECONDS o w))
    = poll_cycle POLL_SECONDS (env_of o r (fst up)) w /\
  snd (poll_iteration cfg POLL_SECONDS o w) = snd up.
Proof.
  intros R up. unfold poll_iteration, up.
  destruct (midnight_check _ _ _) as [s1 bf1].
  destruct (read_regs _ _ _ _) as [[r'|] calls]; cbn [fst] in R;
    [|discriminate R].
  inversion R. subst r'. split; reflexivity.
Qed.

Lemma read_regs_failed (m : Modbus) :
  connects m = false \/ reply m = NoReply \/ reply m = ErrorReply ->
  fst (read_regs (MODBUS_UNIT_ID cfg) 80 40 m) = Returned None.
Proof.
  unfold read_regs. intros [C|[R|R]].
  - now rewrite C.
  - rewrite R. now destruct (connects m).
  - rewrite R. now destruct (connects m).
Qed.

End Iteration.

(** X21.  [read_regs] closes the client on every path, once and as its
    last call, after a connect that is its first call; it reads only
    after a successful connect, with the start, count and unit given.
    It returns registers exactly when the connect succeeded and the
    device answered with registers, and raises exactly when the read
    itself raises. *)
Theorem read_regs_closes (unit start count : Z) (m : Modbus) :
  let out := fst (read_regs unit start count m) in
  let calls := snd (read_regs unit start count m) in
  (exists mid, calls = CallConnect :: mid ++ [CallClose] /\
               ~ In CallClose mid /\ ~ In CallConnect mid) /\
  (forall a b c, In (CallRead a b c) calls ->
     connects m = true /\ a = start /\ b = count /\ c = unit) /\
  (forall l, out = Returned (Some l) <->
     connects m = true /\ reply m = Registers l) /\
  (out = Raised <-> connects m = true /\ reply m = ReadRaises).
Proof.
  intros out calls. unfold out, calls, read_regs.
  destruct (connects m); cbn [negb].
  - destruct (reply m) as [| |l'|]; cbn [fst snd];
      (split; [exists [CallRead start count unit];
               split; [reflexivity|];
               split; intros [C|[]]; discriminate C|]);
      (split; [intros a b c [C|[C|[C|[]]]]; inversion C; now repeat split|]);
      (split; [intros l|]); split; try discriminate;
      try (intros [_ C]; discriminate C); try (intros [= ->]; now split);
      try (intros [_ [= ->]]; reflexivity); intros; now split.
  - cbn [fst snd].
    split; [exists []; split; [reflexivity|]; split; intros []|].
    split; [intros a b c [C|[C|[]]]; discriminate C|].
    split; [intros l|]; split; try discriminate; intros [C _]; discriminate C.
Qed.

Lemma read_regs_closes_witness :
  fst (read_regs 2 80 40 {| connects := true; reply := Registers sample_regs |})
  = Returned (Some sample_regs).
Proof.
  apply (read_regs_closes 2 80 40
           {| connects := true; reply := Registers sample_regs |}).
  split; reflexivity.
Defined.

(** X22.  A read that raises and a read that fails are not treated
    alike.  When [read_regs] raises, the iteration does nothing beyond the
    midnight check: no offline mark, no grading, no save, no upload, so
    without rollover the state stays as it was, whatever it says.  When the
    connect fails, or the device gives no reply or an error reply, the
    iteration marks the inverter offline, grades "OFFLINE" and makes no
    upload request. *)
Theorem iteration_read_outcomes (cfg : Config) (POLL_SECONDS : Z)
    (o : Outside) (w : World) :
  let w' := fst (fst (poll_iteration cfg POLL_SECONDS o w)) in
  let rq := snd (poll_iteration cfg POLL_SECONDS o w) in
  let checked := midnight_check (clock_midnight o) (state w) (baseline w) in
  (connects (modbus o) = true -> reply (modbus o) = ReadRaises ->
   state w' = fst checked /\ baseline w' = snd checked /\
   state_json w' = state_json w /\ rq = None /\
   (rollover_due (state w) (today_midnight_local (clock_midnight o)) = false ->
    state w' = state w)) /\
  (connects (modbus o) = false \/ reply (modbus o) = NoReply \/
   reply (modbus o) = ErrorReply ->
   inverter_connected (state w') = false /\
   status_text (state w') = "Offline" /\
   dq_text (state w') = "OFFLINE" /\ rq = None).
Proof.
  intros w' rq checked. split.
  - intros C R. unfold w', rq, checked, poll_iteration, read_regs.
    rewrite C, R. cbn [negb].
    destruct (midnight_check _ _ _) as [s1 bf1] eqn:M. cbn.
    repeat split. intros D. rewrite (no_rollover _ _ _ D) in M.
    now inversion M.
  - intros F.
    destruct (poll_iteration_returned cfg POLL_SECONDS o w None
                (read_regs_failed cfg _ F)) as [W R].
    fold w' in W. fold rq in R. cbn [read_legacy_block fst cycle_upload snd] in W, R.
    assert (U : undecodable (read (env_of o None false))) by now left.
    destruct (poll_cycle_offline POLL_SECONDS (env_of o None false) w U)
      as [S _].
    rewrite <- W in S. rewrite S. unfold grade. cbn. now repeat split.
Qed.

Lemma iteration_read_outcomes_witness :
  state (fst (fst (poll_iteration
                     {| DRY_RUN := false; PV_API_KEY := "key";
                        PV_SYSTEM_ID := "12345"; MODBUS_UNIT_ID := 2 |}
                     300
                     {| clock_now := at_time 20000 80000;
                        clock_midnight := at_time 20000 80000;
                        clock_decode := at_time 20000 80000;
                        clock_upload := at_time 20000 80000;
                        modbus := {| connects := true; reply := ReadRaises |};
                        http := PostRaises; file_fault := None |}
                     world_first)))
  = state world_first.
Proof.
  destruct (iteration_read_outcomes
              {| DRY_RUN := false; PV_API_KEY := "key";
                 PV_SYSTEM_ID := "12345"; MODBUS_UNIT_ID := 2 |}
              300
              {| clock_now := at_time 20000 80000;
                 clock_midnight := at_time 20000 80000;
                 clock_decode := at_time 20000 80000;
                 clock_upload := at_time 20000 80000;
                 modbus := {| connects := true; reply := ReadRaises |};
                 http := PostRaises; file_fault := None |}
              world_first) as (H & _).
  destruct (H eq_refl eq_refl) as (_ & _ & _ & _ & S).
  apply S. reflexivity.
Defined.


